(** * Visor-3D-Destiny-2: equipment resolution, shader dyes, model assembly

    A shallow embedding of the functions of the viewer that turn a Bungie
    profile response into the inputs of the 3D loader
    ([parseEquipmentForLoader], BungieAuth.js) and, in the viewer script
    that imports it, load the dyes of a shader ([loadShaderDyes]), assemble
    a mesh and its skeleton ([loadModel]), frame it ([addGroupToScene])
    and drive the per-item loading loop ([init]).

    Numbers that hold hashes and indices are integers ([Z]); the numbers
    of the framing are binary64 floats. A call that may throw returns a
    [Js.result]; a promise that may stay unsettled is a [Js.Promise]. The
    manifest, the model loader and three.js are not part of the
    development: what they answer is a parameter of the function that
    calls them. *)

From Stdlib Require Import ZArith List String Lia.
From Stdlib Require PrimFloat.
From stdpp Require Import base option list gmap strings pretty.
Import ListNotations.

Local Open Scope string_scope.
Local Open Scope list_scope.
Local Open Scope Z_scope.

(** ** JavaScript values shared by the modules *)

Module Js.

(** A thrown exception or the reason of a rejected promise: the name of
    its constructor and its message. *)
Record Exn := { name : string; message : string }.

Definition TypeError (msg : string) : Exn :=
  {| name := "TypeError"; message := msg |}.

(** A call either returns or throws; so does, for the one who awaits it,
    a promise that is known to settle. *)
Inductive result (A : Type) : Type :=
| Ok (a : A)
| Throw (e : Exn).
Arguments Ok {A} a.
Arguments Throw {A} e.

(** A promise, as the one who awaits it finds it: resolved with a value,
    rejected with a reason, or never settled. *)
Inductive Promise (A : Type) : Type :=
| Resolved (a : A)
| Rejected (e : Exn)
| Pending.
Arguments Resolved {A} a.
Arguments Rejected {A} e.
Arguments Pending {A}.

(** Truthiness of a number that holds an integer: everything but 0. *)
Definition truthy (n : Z) : bool := negb (n =? 0).

(** The value of a promise that resolved. *)
Definition resolved {A} (p : Promise A) : option A :=
  match p with Resolved a => Some a | Rejected _ | Pending => None end.

(** The property names every object inherits from [Object.prototype]:
    [object[key]] gives a function (an object, for [__proto__]) for them
    when the object has no own property of that name. *)
Definition Object_prototype : list string :=
  [ "constructor"; "hasOwnProperty"; "isPrototypeOf"; "propertyIsEnumerable";
    "toLocaleString"; "toString"; "valueOf"; "__proto__";
    "__defineGetter__"; "__defineSetter__"; "__lookupGetter__";
    "__lookupSetter__" ].

(** [object[key]], for an object parsed from JSON whose own properties are
    those of [m]: the own value, a value inherited from [Object.prototype],
    or [undefined]. *)
Inductive Property (A : Type) : Type :=
| ownValue (a : A)
| inheritedValue
| noValue.
Arguments ownValue {A} a.
Arguments inheritedValue {A}.
Arguments noValue {A}.

(** [a || d] for an optional array or object: [undefined] is the only
    falsy one. *)
Definition or_else {A} (a : option A) (d : A) : A :=
  match a with Some x => x | None => d end.

End Js.

(** ** BungieAuth.js: [parseEquipmentForLoader] *)

Module BungieAuth.
Import Js.

(** *** The profile response, as the function reads it *)

Record Character := {
  classType : Z; genderType : Z; raceType : Z; light : Z;
  emblemPath : string }.

Record EquippedItem := {
  bucketHash : Z; itemHash : Z; itemInstanceId : string }.

(** [equipment[characterId]?.items]: the entry may carry no [items]. *)
Record EquipmentEntry := { items : option (list EquippedItem) }.

(** [plugHash] is optional in the response; [sockets[i]?.plugHash] is
    then [undefined]. *)
Record Socket := {
  plugHash : option Z; isEnabled : bool; isVisible : bool }.

Record SocketsEntry := { sockets : option (list Socket) }.

Record Dye := { channelHash : Z; dyeHash : Z }.

(** An entry of [peerView.equipment]. *)
Record PeerItem := { pe_itemHash : Z; pe_dyes : option (list Dye) }.

Record PeerView := { equipment : option (list PeerItem) }.

Record RenderEntry := { peerView : option PeerView }.

(** A component of the profile response: not in the response, there
    without [data] (as the API answers for a component it may not show),
    or there with its data. *)
Inductive Component (A : Type) : Type :=
| noComponent
| noData
| withData (data : A).
Arguments noComponent {A}.
Arguments noData {A}.
Arguments withData {A} data.

(** [profileData.characters.data] and [profileData.characterEquipment.data]
    are read without a guard; [itemComponents?.sockets?.data] and
    [characterRenderData?.data] are read with guards, which make one case
    of every way of being absent. Objects keyed by character id or item
    instance id are finite maps on strings: their own properties. *)
Record ProfileData := {
  characters : Component (gmap string Character);
  characterEquipment : Component (gmap string EquipmentEntry);
  itemComponents_sockets_data : option (gmap string SocketsEntry);
  characterRenderData_data : option (gmap string RenderEntry) }.

(** *** The value returned *)

Record ArmorDetail := {
  bucket : string; ad_itemHash : Z; instanceId : string }.

(** [character] is built field by field from [characters[characterId]];
    [None] is the object whose five fields are all [undefined], built from
    a value that has none of them. *)
Record Equipment := {
  character : option Character;
  itemHashes : list Z;
  shaderHashes : list Z;
  armorDetails : list ArmorDetail;
  itemDyes : list (list Dye);
  peerViewEquipment : list PeerItem }.

(** *** The function *)

(** [ARMOR_BUCKETS], in the order of its keys: [for ... in] visits the
    string keys of an object literal in the order they were written. *)
Definition ARMOR_BUCKETS : list (string * Z) :=
  [ ("HELMET", 3448274439);
    ("GAUNTLETS", 3551918588);
    ("CHEST", 14239492);
    ("LEGS", 20886954);
    ("CLASS_ITEM", 1585787867) ].

(** [sockets[i]?.plugHash && sockets[i]?.isVisible], when truthy, with the
    plug hash that the body of the [if] then reads. *)
Definition visiblePlug (s : option Socket) : option Z :=
  match s with
  | Some s =>
      match plugHash s with
      | Some h => if truthy h && isVisible s then Some h else None
      | None => None
      end
  | None => None
  end.

(** [for (let i = 3; i <= 5; i++) { if (...) { shaderHash = ...; break; } }]:
    [i] is the current index and [n] the number of indices left to
    visit. *)
Fixpoint shaderLoop (sockets : list Socket) (i n : nat) (shaderHash : Z) : Z :=
  match n with
  | O => shaderHash
  | S n' =>
      match visiblePlug (sockets !! i) with
      | Some h => h
      | None => shaderLoop sockets (S i) n' shaderHash
      end
  end.

(** The shader hash of an item: [let shaderHash = 0], then the loop when
    the item has socket state. (The loop over sockets 0 and 1 before it
    has an empty body.) *)
Definition shaderHashOf (sockets : option (list Socket)) : Z :=
  match sockets with
  | Some ss => shaderLoop ss 3 3 0
  | None => 0
  end.

(** [itemSockets[itemInstanceId]?.sockets] *)
Definition socketsOf (itemSockets : gmap string SocketsEntry)
    (itemInstanceId : string) : option (list Socket) :=
  match itemSockets !! itemInstanceId with
  | Some e => sockets e
  | None => None
  end.

(** [peerViewEquipment.find(pe => pe.itemHash === itemHash)?.dyes || []] *)
Definition dyesFor (peerViewEquipment : list PeerItem) (itemHash : Z) : list Dye :=
  match find (fun pe => pe_itemHash pe =? itemHash) peerViewEquipment with
  | Some peerItem => or_else (pe_dyes peerItem) []
  | None => []
  end.

(** The three arrays the loop pushes to. *)
Record Arrays := {
  armorItems : list ArmorDetail;
  arr_shaderHashes : list Z;
  arr_itemDyes : list (list Dye) }.

Definition noArrays : Arrays :=
  {| armorItems := []; arr_shaderHashes := []; arr_itemDyes := [] |}.

(** [items.find(i => i.bucketHash === bucketHash)] *)
Definition findItem (items : list EquippedItem) (h : Z) : option EquippedItem :=
  find (fun i => bucketHash i =? h) items.

(** One turn of [for (const bucketName in ARMOR_BUCKETS)]. *)
Definition bucketStep (items : list EquippedItem)
    (itemSockets : gmap string SocketsEntry)
    (peerViewEquipment : list PeerItem)
    (acc : Arrays) (b : string * Z) : Arrays :=
  let bucketName := fst b in
  let bucketHash := snd b in
  match findItem items bucketHash with
  | Some item =>
      let itemHash := itemHash item in
      let itemInstanceId := itemInstanceId item in
      let shaderHash := shaderHashOf (socketsOf itemSockets itemInstanceId) in
      let dyesForItem := dyesFor peerViewEquipment itemHash in
      {| armorItems := armorItems acc ++
           [ {| bucket := bucketName; ad_itemHash := itemHash;
                instanceId := itemInstanceId |} ];
         arr_shaderHashes := arr_shaderHashes acc ++ [shaderHash];
         arr_itemDyes := arr_itemDyes acc ++ [dyesForItem] |}
  | None => acc
  end.

Definition armorLoop (items : list EquippedItem)
    (itemSockets : gmap string SocketsEntry)
    (peerViewEquipment : list PeerItem) : Arrays :=
  fold_left (bucketStep items itemSockets peerViewEquipment)
    ARMOR_BUCKETS noArrays.

(** [characters[characterId]] *)
Definition getProperty {A} (object : gmap string A) (key : string)
    : Property A :=
  match object !! key with
  | Some a => ownValue a
  | None =>
      if bool_decide (key ∈ Object_prototype) then inheritedValue else noValue
  end.

(** [equipment[characterId]?.items || []]. (A value inherited from
    [Object.prototype] has no [items]: it reads as a missing entry does.
    The same holds of [itemSockets[itemInstanceId]?.sockets] and of
    [renderData[characterId]?.peerView].) *)
Definition itemsIn (equipment : gmap string EquipmentEntry)
    (characterId : string) : list EquippedItem :=
  match equipment !! characterId with
  | Some e => or_else (items e) []
  | None => []
  end.

(** The items of the character in a profile whose equipment component has
    data. *)
Definition itemsOf (profileData : ProfileData) (characterId : string)
    : list EquippedItem :=
  match characterEquipment profileData with
  | withData equipment => itemsIn equipment characterId
  | _ => []
  end.

(** [(renderData[characterId]?.peerView || {}).equipment || []] *)
Definition peerViewEquipmentOf (profileData : ProfileData)
    (characterId : string) : list PeerItem :=
  let renderData := or_else (characterRenderData_data profileData) ∅ in
  match renderData !! characterId with
  | Some e =>
      match peerView e with
      | Some pv => or_else (equipment pv) []
      | None => []
      end
  | None => []
  end.

(** The function. The first two lines read [data] of the two components,
    which throws for a component that is not there; [characters[characterId]]
    and [equipment[characterId]] then throw for [data] that is
    [undefined]. [character] is read only in the object literal that is
    returned: an absent character makes [character.classType] throw there,
    after the loop. *)
Definition parseEquipmentForLoader (profileData : ProfileData)
    (characterId : string) : result Equipment :=
  match characters profileData, characterEquipment profileData with
  | noComponent, _ | _, noComponent =>
      Throw (TypeError "Cannot read properties of undefined (reading 'data')")
  | noData, _ | _, noData =>
      Throw (TypeError ("Cannot read properties of undefined (reading '"
                          +:+ characterId +:+ "')"))
  | withData characters, withData equipment =>
      let itemSockets := or_else (itemComponents_sockets_data profileData) ∅ in
      let character := getProperty characters characterId in
      let items := itemsIn equipment characterId in
      let peerViewEquipment := peerViewEquipmentOf profileData characterId in
      let arrays := armorLoop items itemSockets peerViewEquipment in
      let returned (character : option Character) :=
        {| character := character;
           itemHashes := map ad_itemHash (armorItems arrays);
           shaderHashes := arr_shaderHashes arrays;
           armorDetails := armorItems arrays;
           itemDyes := arr_itemDyes arrays;
           peerViewEquipment := peerViewEquipment |} in
      match character with
      | noValue =>
          Throw (TypeError
            "Cannot read properties of undefined (reading 'classType')")
      | inheritedValue => Ok (returned None)
      | ownValue character =>
          Ok (returned
                (Some {| classType := classType character;
                         genderType := genderType character;
                         raceType := raceType character;
                         light := light character;
                         emblemPath := emblemPath character |}))
      end
  end.

End BungieAuth.

(** ** The viewer script: [loadShaderDyes], [loadModel], [addGroupToScene],
    [init] *)

Module Main.
Import Js.
Import PrimFloat.

(** *** Shader dyes *)

(** The [material_properties] of a dye: its albedo tints, as RGB arrays. *)
Record MaterialProperties := {
  primary_albedo_tint : list float;
  secondary_albedo_tint : list float;
  worn_albedo_tint : option (list float) }.

Record ShaderDye := { material_properties : option MaterialProperties }.

(** [data.gearAsset]: each of the three dye arrays may be absent. *)
Record GearAsset := {
  custom_dyes : option (list ShaderDye);
  default_dyes : option (list ShaderDye);
  locked_dyes : option (list ShaderDye) }.

Record AssetData := { gearAsset : option GearAsset }.

(** What [manifest.getAsset(hash, onLoad, undefined, onError)] does. The
    manifest (three.tgxloader.js) is outside this development: it calls
    [onLoad] with the data it found (or with nothing), calls [onError],
    throws, or returns and never calls back. *)
Inductive GetAsset :=
| assetOnLoad (data : option AssetData)
| assetOnError (err : Exn)
| assetThrows (err : Exn)
| assetSilent.

(** A [THREE.TGXManifest], by what its [getAsset] does for a hash. *)
Record Manifest := { getAsset : Z -> GetAsset }.

(** The globals [loadShaderDyes] reads and writes: whether [window.THREE]
    and [THREE.TGXLoader] are there, the manifest kept in
    [THREE.TGXLoader.Manifest] once one was created, and what
    [new THREE.TGXManifest(...)] does: it gives a manifest or throws (as it
    does when [THREE.TGXManifest] is no constructor). *)
Record Globals := {
  window_THREE : bool;
  THREE_TGXLoader : bool;
  TGXLoader_Manifest : option Manifest;
  new_TGXManifest : result Manifest }.

(** [THREE.TGXLoader.Manifest = manifest] *)
Definition withManifest (manifest : Manifest) (g : Globals) : Globals :=
  {| window_THREE := window_THREE g;
     THREE_TGXLoader := THREE_TGXLoader g;
     TGXLoader_Manifest := Some manifest;
     new_TGXManifest := new_TGXManifest g |}.

(** The manifest the function goes on with: the one kept, or a new one. *)
Definition manifestOf (g : Globals) : result Manifest :=
  match TGXLoader_Manifest g with
  | Some manifest => Ok manifest
  | None => new_TGXManifest g
  end.

(** [arr && arr.length > 0] *)
Definition nonEmpty {A} (arr : option (list A)) : bool :=
  match arr with
  | Some (_ :: _) => true
  | _ => false
  end.

(** The body of the [onLoad] callback: the value the promise resolves
    with. *)
Definition shaderDyesOf (data : option AssetData) : option (list ShaderDye) :=
  match data with
  | None => None
  | Some data =>
      match gearAsset data with
      | None => None
      | Some gearAsset =>
          if nonEmpty (custom_dyes gearAsset) then custom_dyes gearAsset
          else if nonEmpty (default_dyes gearAsset) then default_dyes gearAsset
          else None
      end
  end.

(** [new Promise((resolve) => { try { manifest.getAsset(...) } catch
    { resolve(null) } })]: every path of the callbacks and the [catch]
    ends in a [resolve]. *)
Definition askManifest (manifest : Manifest) (shaderHash : Z)
    : Promise (option (list ShaderDye)) :=
  match getAsset manifest shaderHash with
  | assetOnLoad data => Resolved (shaderDyesOf data)
  | assetOnError err => Resolved None
  | assetThrows err => Resolved None
  | assetSilent => Pending
  end.

(** The promise of [loadShaderDyes], with the globals as the call leaves
    them; [None] is [null]. The manifest is created before the promise and
    outside its [try]: an exception of the constructor rejects the promise
    of the [async] function. *)
Definition loadShaderDyes (g : Globals) (shaderHash : Z)
    : Promise (option (list ShaderDye)) * Globals :=
  if negb (truthy shaderHash) || (shaderHash =? 0) then (Resolved None, g)
  else if negb (window_THREE g) || negb (THREE_TGXLoader g)
  then (Resolved None, g)
  else
    match TGXLoader_Manifest g with
    | Some manifest => (askManifest manifest shaderHash, g)
    | None =>
        match new_TGXManifest g with
        | Throw err => (Rejected err, g)
        | Ok manifest =>
            (askManifest manifest shaderHash, withManifest manifest g)
        end
    end.

(** *** Model assembly *)

(** An entry of [geometry.bones]. *)
Record BoneData := {
  bone_name : option string;
  pos : option (list float);
  rotq : option (list float);
  scl : option (list float);
  parent : option Z }.

(** The geometry handed to the [onLoad] callback of the loader; of it the
    callback reads the bones to decide between a skinned and a regular
    mesh and to build the skeleton. (The copy of the skin indices and
    weights into buffer attributes does not touch the bones; a callback
    that throws there is [loaderOnLoadThrows] below.) *)
Record Geometry := { bones : option (list BoneData) }.

(** Where a [THREE.Bone] hangs: nowhere yet, under another bone of
    [threeBones] (by index), or under the mesh. *)
Inductive Parent := NoParent | BoneParent (i : nat) | MeshParent.

Record Bone := {
  name : string;
  position : list float;
  quaternion : list float;
  scale : list float;
  bone_parent : Parent }.

(** [boneData.name || `bone_${i}`]: the empty string is falsy too. *)
Definition boneName (i : nat) (boneData : BoneData) : string :=
  match bone_name boneData with
  | Some n => if String.eqb n "" then "bone_" +:+ pretty i else n
  | None => "bone_" +:+ pretty i
  end.

(** First [forEach]: one [THREE.Bone] per entry. *)
Definition newBone (i : nat) (boneData : BoneData) : Bone :=
  {| name := boneName i boneData;
     position := or_else (pos boneData) [0; 0; 0]%float;
     quaternion := or_else (rotq boneData) [0; 0; 0; 1]%float;
     scale := or_else (scl boneData) [1; 1; 1]%float;
     bone_parent := NoParent |}.

Definition setParent (p : Parent) (b : Bone) : Bone :=
  {| name := name b; position := position b; quaternion := quaternion b;
     scale := scale b; bone_parent := p |}.

(** [threeBones[p].add(threeBones[c])] of three.js: an object is not added
    to itself; otherwise the child leaves its former parent and hangs
    under the new one. *)
Definition Object3D_add (threeBones : list Bone) (p c : nat) : list Bone :=
  if (p =? c)%nat then threeBones
  else alter (setParent (BoneParent p)) c threeBones.

(** [boneData.parent >= 0 && boneData.parent < threeBones.length];
    a comparison with [undefined] is false. *)
Definition parentInRange (boneData : BoneData) (len : nat) : option nat :=
  match parent boneData with
  | Some p => if (0 <=? p) && (p <? Z.of_nat len) then Some (Z.to_nat p) else None
  | None => None
  end.

(** Second [forEach]: the hierarchy. [i] is the index of the head of
    [rest]. *)
Fixpoint linkBones (rest : list BoneData) (i : nat) (threeBones : list Bone)
    : list Bone :=
  match rest with
  | [] => threeBones
  | boneData :: rest' =>
      let threeBones' :=
        match parentInRange boneData (length threeBones) with
        | Some p => Object3D_add threeBones p i
        | None => threeBones
        end in
      linkBones rest' (S i) threeBones'
  end.

(** [boneData.parent < 0 || boneData.parent === undefined] *)
Definition isRootData (boneData : BoneData) : bool :=
  match parent boneData with
  | Some p => p <? 0
  | None => true
  end.

(** Third [forEach]: [let rootBone = threeBones[0]], assigned anew at
    every entry that passes the test. The bone is named by its index. *)
Fixpoint findRoot (rest : list BoneData) (i : nat) (rootBone : nat) : nat :=
  match rest with
  | [] => rootBone
  | boneData :: rest' =>
      findRoot rest' (S i) (if isRootData boneData then i else rootBone)
  end.

(** The mesh the promise resolves with. A skinned mesh carries the bones
    of its skeleton, in the order of [geometry.bones], and the index of
    the bone added to it as root. *)
Inductive Mesh :=
| SkinnedMesh (mesh_name : string) (skeleton : list Bone) (rootBone : nat)
| PlainMesh (mesh_name : string).

Definition rootBoneOf (mesh : Mesh) : option nat :=
  match mesh with
  | SkinnedMesh _ _ rootBone => Some rootBone
  | PlainMesh _ => None
  end.

Definition skeletonOf (mesh : Mesh) : list Bone :=
  match mesh with
  | SkinnedMesh _ skeleton _ => skeleton
  | PlainMesh _ => []
  end.

(** The body of the [onLoad] callback. *)
Definition createMesh (itemHash : Z) (geometry : Geometry) : Mesh :=
  let mesh_name := "item_" +:+ pretty itemHash in
  match bones geometry with
  | Some (b :: bs) =>
      let boneDatas := b :: bs in
      let threeBones := imap newBone boneDatas in
      let threeBones := linkBones boneDatas 0 threeBones in
      let rootBone := findRoot boneDatas 0 0 in
      (* mesh.add(rootBone) *)
      let threeBones := alter (setParent MeshParent) rootBone threeBones in
      SkinnedMesh mesh_name threeBones rootBone
  | _ => PlainMesh mesh_name
  end.

(** What [loader.load(loaderOptions, onLoad, onProgress, onError)] comes
    to in the end. The loader (three.tgxloader.js) is outside this
    development. It calls [onLoad] with a geometry and the callback runs to
    its [resolve(mesh)]; or it calls [onLoad] and the callback throws before
    that: the import of DestinyMaterial.js fails, the conversion to a
    buffer geometry throws, or the skin copy reads [x] of an entry of
    [skinWeights] that is not there, and [onError] is not called; or it
    calls [onError]; or it calls neither. [progress] is what the progress
    callback wrote last to the status line, if it was called with a total:
    the text of the percentage. *)
Inductive LoaderResult :=
| loaderOnLoad (geometry : Geometry)
| loaderOnLoadThrows (progress : option string) (err : Exn)
| loaderOnError (err : Exn)
| loaderSilent (progress : option string).

(** The promise of [loadModel]: resolved with the mesh at the end of the
    [onLoad] callback, or rejected with the error of the loader. The
    callback is an [async] function inside the executor of the promise: what
    it throws rejects its own promise, which no one holds, and neither
    resolves nor rejects the promise of [loadModel]. *)
Definition loadModel (loaded : LoaderResult) (itemHash : Z) : Promise Mesh :=
  match loaded with
  | loaderOnLoad geometry => Resolved (createMesh itemHash geometry)
  | loaderOnLoadThrows _ err => Pending
  | loaderOnError err => Rejected err
  | loaderSilent _ => Pending
  end.

(** The status line while the promise of [loadModel] is not settled:
    [updateStatus(`Cargando modelo ${itemHash}...`)] at the start, then
    [updateStatus(`Cargando: ${pct}%`)] of the progress callback. *)
Definition loadingStatus (progress : option string) (itemHash : Z) : string :=
  match progress with
  | Some pct => "Cargando: " +:+ pct +:+ "%"
  | None => "Cargando modelo " +:+ pretty itemHash +:+ "..."
  end.

(** *** Framing: [addGroupToScene] *)

Record Vector3 := { x : float; y : float; z : float }.

(** [isFinite] of a number. *)
Definition isFinite (v : float) : bool := is_finite v.

(** [Math.max] of two numbers: NaN if either is, and +0 above -0. *)
Definition Math_max2 (a b : float) : float :=
  if is_nan a || is_nan b then nan
  else if (a <? b)%float then b
  else if (b <? a)%float then a
  else if get_sign a then b else a.

(** [Math.max(...args)], from -Infinity. *)
Definition Math_max (args : list float) : float :=
  fold_left Math_max2 args neg_infinity.

(** [Math.PI], and the [fov] the camera is created with. *)
Definition Math_PI : float := 0x1.921fb54442d18p+1%float.
Definition camera_fov : float := 45%float.

(** What the function sets [group.scale], [group.position] and
    [camera.position] to. The camera is then turned to the origin and
    handed to [controls.update()] of OrbitControls (three.js), which
    recomputes its position around the target and is outside this
    development: [camera_position_set] is the argument of
    [camera.position.set], not where the controls leave the camera. *)
Record Placement := {
  group_scale : Vector3;
  group_position : Vector3;
  camera_position_set : Vector3 }.

(** [let scaleFactor = 1; if (maxDim < 0.5 && maxDim > 0) scaleFactor = 1 / maxDim] *)
Definition scaleFactorOf (maxDim : float) : float :=
  if (maxDim <? 0.5)%float && (0 <? maxDim)%float then (1 / maxDim)%float
  else 1%float.

Definition multiplyScalar (v : Vector3) (s : float) : Vector3 :=
  {| x := (x v * s)%float; y := (y v * s)%float; z := (z v * s)%float |}.

(** The bounding box as the function goes on with it, after the fallback:
    its largest dimension and its centre. *)
Definition boxOrDefault (size center : Vector3) : float * Vector3 :=
  let maxDim := Math_max [x size; y size; z size] in
  if negb (isFinite maxDim) || (maxDim <=? 0)%float
  then (2%float, {| x := 0%float; y := 1%float; z := 0%float |})
  else (maxDim, center).

Section Framing.

(** [Math.tan], the runtime's. *)
Variable Math_tan : float -> float.

(** [(maxDim * scaleFactor) / (2 * Math.tan(fov / 2)) * 1.5] *)
Definition cameraDistanceOf (maxDim scaleFactor : float) : float :=
  let fov := (camera_fov * (Math_PI / 180))%float in
  ((maxDim * scaleFactor) / (2 * Math_tan (fov / 2)) * 1.5)%float.

(** Scale, re-centre, and set the position of the camera. *)
Definition place (maxDim : float) (center : Vector3) : Placement :=
  let scaleFactor := scaleFactorOf maxDim in
  let scaledCenter := multiplyScalar center scaleFactor in
  let cameraDistance := cameraDistanceOf maxDim scaleFactor in
  {| group_scale := {| x := scaleFactor; y := scaleFactor; z := scaleFactor |};
     group_position :=
       {| x := (- x scaledCenter)%float; y := (- y scaledCenter)%float;
          z := (- z scaledCenter)%float |};
     camera_position_set :=
       {| x := 0%float; y := 0%float; z := Math_max [cameraDistance; 2%float] |} |}.

(** The framing of [addGroupToScene], from the size and the centre of the
    bounding box of the group ([THREE.Box3], three.js). *)
Definition frameGroup (size center : Vector3) : Placement :=
  let '(maxDim, center) := boxOrDefault size center in
  place maxDim center.

End Framing.

(** *** The loading loop of [init] *)

(** The options [init] passes to [loadModel]. *)
Record Options := {
  shaderHash : option Z;
  opt_itemDyes : option (list BungieAuth.Dye);
  shaderDyes : option (list ShaderDye) }.

(** What the page shows: the status line, and the character group once
    [addGroupToScene] has put it in the scene, with its framing. *)
Record Page := {
  status : string;
  scene : option (list Mesh * Placement) }.

(** The variables of the loop: the children of [characterGroup] and
    [loadedCount]. (The status line changes at every turn and is written
    anew after the loop.) *)
Record Loading := {
  children : list Mesh;
  loadedCount : nat }.

Section Init.

(** What the loader does with the request of the [i]-th turn. *)
Variable load : nat -> Z -> Options -> LoaderResult.
Variable Math_tan : float -> float.
(** [new THREE.Box3().setFromObject(group)]: size and centre. *)
Variable boundingBox : list Mesh -> Vector3 * Vector3.

(** [if (shaderHash && shaderHash !== 0) shaderDyes = await loadShaderDyes(shaderHash)] *)
Definition shaderDyesFor (g : Globals) (shaderHash : option Z)
    : Promise (option (list ShaderDye)) * Globals :=
  match shaderHash with
  | Some h =>
      if truthy h && negb (h =? 0) then loadShaderDyes g h
      else (Resolved None, g)
  | None => (Resolved None, g)
  end.

Definition optionsAt (equipment : BungieAuth.Equipment) (i : nat)
    (shaderDyes : option (list ShaderDye)) : Options :=
  {| shaderHash := BungieAuth.shaderHashes equipment !! i;
     opt_itemDyes := BungieAuth.itemDyes equipment !! i;
     shaderDyes := shaderDyes |}.

(** The [try] block of one turn up to the mesh: the two promises it
    awaits, as one. *)
Definition tryItem (g : Globals) (equipment : BungieAuth.Equipment) (i : nat)
    (itemHash : Z) : Promise Mesh * Globals :=
  match shaderDyesFor g (BungieAuth.shaderHashes equipment !! i) with
  | (Resolved shaderDyes, g) =>
      (loadModel (load i itemHash (optionsAt equipment i shaderDyes)) itemHash,
       g)
  | (Rejected err, g) => (Rejected err, g)
  | (Pending, g) => (Pending, g)
  end.

(** One turn of [for (let i = 0; i < equipment.itemHashes.length; i++)]:
    [try { ... } catch (err) { console.error(...) }]. [None]: the turn
    awaits a promise that is never settled, and does not end. *)
Definition loadItem (g : Globals) (equipment : BungieAuth.Equipment)
    (st : Loading) (i : nat) (itemHash : Z) : option Loading * Globals :=
  match tryItem g equipment i itemHash with
  | (Resolved mesh, g) =>
      (Some {| children := children st ++ [mesh];
               loadedCount := S (loadedCount st) |}, g)
  | (Rejected err, g) => (Some st, g)
  | (Pending, g) => (None, g)
  end.

(** The loop from the turn [i] on; [None] when a turn does not end. *)
Fixpoint loadLoop (g : Globals) (equipment : BungieAuth.Equipment)
    (rest : list Z) (i : nat) (st : Loading) : option Loading * Globals :=
  match rest with
  | [] => (Some st, g)
  | itemHash :: rest' =>
      match loadItem g equipment st i itemHash with
      | (Some st, g) => loadLoop g equipment rest' (S i) st
      | (None, g) => (None, g)
      end
  end.

(** [addGroupToScene(group)]: the group is in the scene, framed, and the
    status line is cleared. *)
Definition addGroupToScene (group : list Mesh) : Page :=
  let '(size, center) := boundingBox group in
  {| status := ""; scene := Some (group, frameGroup Math_tan size center) |}.

(** The handler [init] gives to the character selector, by the promise it
    returns and the page it leaves when that promise resolves. The promise
    rejects when [parseEquipmentForLoader] throws, and is never settled
    when a turn of the loop does not end. *)
Definition onSelect (g : Globals) (profileData : BungieAuth.ProfileData)
    (charId : string) : Promise Page * Globals :=
  match BungieAuth.parseEquipmentForLoader profileData charId with
  | Throw err => (Rejected err, g)
  | Ok equipment =>
      let itemHashes := BungieAuth.itemHashes equipment in
      if (0 <? length itemHashes)%nat then
        match loadLoop g equipment itemHashes 0
                {| children := []; loadedCount := 0 |} with
        | (Some st, g) =>
            if (0 <? length (children st))%nat
            then (Resolved (addGroupToScene (children st)), g)
            else (Resolved
                    {| status := "Error: No se pudo cargar ninguna pieza de armadura.";
                       scene := None |}, g)
        | (None, g) => (Pending, g)
        end
      else
        (Resolved {| status := "No se encontró armadura equipada";
                     scene := None |}, g)
  end.

End Init.

End Main.

(** ** Predicates for the statements

    What the properties below say about sockets, bones, vectors and
    snapshots, apart from the functions themselves. *)

Module Spec.
Import BungieAuth PrimFloat.

(** A socket that is visible and carries the non-zero plug hash [h]. *)
Definition visiblePlugged (s : Socket) (h : Z) : Prop :=
  isVisible s = true ∧ plugHash s = Some h ∧ h ≠ 0.

(** [h] is the plug hash of the first socket among the indices 3 to 5 of
    [ss] that is visible with a non-zero plug hash; 0 if there is none. *)
Definition firstShaderPlug (ss : list Socket) (h : Z) : Prop :=
  (∃ i s, (3 ≤ i ≤ 5)%nat ∧ ss !! i = Some s ∧ visiblePlugged s h
     ∧ ∀ j s' h', (3 ≤ j < i)%nat → ss !! j = Some s' → ¬ visiblePlugged s' h')
  ∨ (h = 0
     ∧ ∀ j s' h', (3 ≤ j ≤ 5)%nat → ss !! j = Some s' → ¬ visiblePlugged s' h').

(** Where the hierarchy loop leaves the bone of index [i]: under the bone
    its [parent] names when that is an index of the sequence other than
    its own, nowhere otherwise. *)
Definition attachedTo (boneDatas : list Main.BoneData) (i : nat) : Main.Parent :=
  match boneDatas !! i with
  | Some boneData =>
      match Main.parentInRange boneData (length boneDatas) with
      | Some p => if (p =? i)%nat then Main.NoParent else Main.BoneParent p
      | None => Main.NoParent
      end
  | None => Main.NoParent
  end.

(** The three coordinates are finite numbers (neither NaN nor an
    infinity). *)
Definition finiteVector (v : Main.Vector3) : Prop :=
  Main.isFinite (Main.x v) = true ∧ Main.isFinite (Main.y v) = true
  ∧ Main.isFinite (Main.z v) = true.

(** The double nearest to the tangent of 22.5 degrees, half the field of
    view of the camera. *)
Definition tan_22_5 : float := 0x1.a827999fcef32p-2%float.

(** [t] is that double or one of the two doubles next to it on either
    side: what a tangent accurate to two units in the last place
    returns. *)
Definition nearTan_22_5 (t : float) : Prop :=
  In t [ next_down (next_down tan_22_5); next_down tan_22_5; tan_22_5;
         next_up tan_22_5; next_up (next_up tan_22_5) ].

(** Two states of the globals in which [loadShaderDyes] finds the loader
    alike and goes on with the same manifest. *)
Definition sameManifest (g g' : Main.Globals) : Prop :=
  Main.window_THREE g' = Main.window_THREE g
  ∧ Main.THREE_TGXLoader g' = Main.THREE_TGXLoader g
  ∧ Main.new_TGXManifest g' = Main.new_TGXManifest g
  ∧ Main.manifestOf g' = Main.manifestOf g.

(** The equipment component has no equipment for the character: no
    entry, an entry without items, or an empty list of items. *)
Definition noEquipment (equipment : gmap string EquipmentEntry)
    (characterId : string) : Prop :=
  match equipment !! characterId with
  | None => True
  | Some e => items e = None ∨ items e = Some []
  end.

End Spec.

(** ** Inputs to run the functions on *)

Module Sample.
Import Js BungieAuth.

Definition hunter : Character :=
  {| classType := 1; genderType := 0; raceType := 2; light := 1810;
     emblemPath := "/common/destiny2_content/icons/emblem.jpg" |}.

(** The items arrive legs first, with two helmets and a weapon. *)
Definition equipped : list EquippedItem :=
  [ {| bucketHash := 20886954; itemHash := 111; itemInstanceId := "6917529000000000001" |};
    {| bucketHash := 3448274439; itemHash := 222; itemInstanceId := "6917529000000000002" |};
    {| bucketHash := 3448274439; itemHash := 333; itemInstanceId := "6917529000000000003" |};
    {| bucketHash := 1498876634; itemHash := 444; itemInstanceId := "6917529000000000004" |} ].

(** Sockets of the first helmet: socket 3 has plug 0, socket 4 is not
    visible, socket 5 is the first visible one with a plug. *)
Definition helmetSockets : list Socket :=
  [ {| plugHash := Some 10; isEnabled := true; isVisible := true |};
    {| plugHash := None; isEnabled := false; isVisible := false |};
    {| plugHash := Some 20; isEnabled := true; isVisible := true |};
    {| plugHash := Some 0; isEnabled := true; isVisible := true |};
    {| plugHash := Some 555; isEnabled := true; isVisible := false |};
    {| plugHash := Some 777; isEnabled := true; isVisible := true |} ].

Definition helmetDyes : list Dye :=
  [ {| channelHash := 662199250; dyeHash := 2718048747 |} ].

Definition peers : list PeerItem :=
  [ {| pe_itemHash := 222; pe_dyes := Some helmetDyes |};
    {| pe_itemHash := 111; pe_dyes := None |} ].

Definition profile : ProfileData :=
  {| characters := withData {[ "2305843009000000001" := hunter ]};
     characterEquipment :=
       withData {[ "2305843009000000001" := {| items := Some equipped |} ]};
     itemComponents_sockets_data :=
       Some {[ "6917529000000000002" := {| sockets := Some helmetSockets |} ]};
     characterRenderData_data :=
       Some {[ "2305843009000000001" :=
                 {| peerView := Some {| equipment := Some peers |} |} ]} |}.

(** What [parseEquipmentForLoader] returns for it. *)
Definition parsed : Equipment :=
  {| character := Some hunter;
     itemHashes := [222; 111];
     shaderHashes := [777; 0];
     armorDetails :=
       [ {| bucket := "HELMET"; ad_itemHash := 222;
            instanceId := "6917529000000000002" |};
         {| bucket := "LEGS"; ad_itemHash := 111;
            instanceId := "6917529000000000001" |} ];
     itemDyes := [helmetDyes; []];
     peerViewEquipment := peers |}.

(** The same profile with the items in the opposite order. *)
Definition profile_reversed : ProfileData :=
  {| characters := characters profile;
     characterEquipment :=
       withData {[ "2305843009000000001" := {| items := Some (rev equipped) |} ]};
     itemComponents_sockets_data := itemComponents_sockets_data profile;
     characterRenderData_data := characterRenderData_data profile |}.

(** A character with no equipment entry at all. *)
Definition profile_bare : ProfileData :=
  {| characters := withData {[ "2305843009000000001" := hunter ]};
     characterEquipment := withData ∅;
     itemComponents_sockets_data := None;
     characterRenderData_data := None |}.

(** A profile whose equipment component came without data. *)
Definition profile_private : ProfileData :=
  {| characters := withData {[ "2305843009000000001" := hunter ]};
     characterEquipment := noData;
     itemComponents_sockets_data := None;
     characterRenderData_data := None |}.

(** The page once a manifest was created. *)
Definition globalsWith (manifest : Main.Manifest) : Main.Globals :=
  {| Main.window_THREE := true; Main.THREE_TGXLoader := true;
     Main.TGXLoader_Manifest := Some manifest;
     Main.new_TGXManifest := Ok manifest |}.

(** A manifest that cannot be reached, one that answers with nothing for
    every hash, and one that has a shader with custom and default dyes. *)
Definition manifest_outage : Main.Globals :=
  globalsWith
    {| Main.getAsset := λ _,
         Main.assetOnError {| name := "Error"; message := "Failed to fetch" |} |}.

Definition manifest_empty : Main.Globals :=
  globalsWith {| Main.getAsset := λ _, Main.assetOnLoad None |}.

(** A page on which no manifest was created yet and [THREE.TGXManifest] is
    not there. *)
Definition manifest_missing : Main.Globals :=
  {| Main.window_THREE := true; Main.THREE_TGXLoader := true;
     Main.TGXLoader_Manifest := None;
     Main.new_TGXManifest :=
       Throw (TypeError "THREE.TGXManifest is not a constructor") |}.

Definition dyeA : Main.ShaderDye := {| Main.material_properties := None |}.
Definition dyeB : Main.ShaderDye :=
  {| Main.material_properties :=
       Some {| Main.primary_albedo_tint := [PrimFloat.one; PrimFloat.zero; PrimFloat.zero];
               Main.secondary_albedo_tint := [PrimFloat.zero; PrimFloat.one; PrimFloat.zero];
               Main.worn_albedo_tint := None |} |}.

Definition shaderAsset : Main.GearAsset :=
  {| Main.custom_dyes := Some [dyeB; dyeA];
     Main.default_dyes := Some [dyeA];
     Main.locked_dyes := Some [dyeA; dyeA] |}.

Definition shaderManifest : Main.Manifest :=
  {| Main.getAsset := λ _,
       Main.assetOnLoad (Some {| Main.gearAsset := Some shaderAsset |}) |}.

Definition manifest_shader : Main.Globals := globalsWith shaderManifest.

(** The same manifest, still to be created at the first call. *)
Definition manifest_fresh : Main.Globals :=
  {| Main.window_THREE := true; Main.THREE_TGXLoader := true;
     Main.TGXLoader_Manifest := None;
     Main.new_TGXManifest := Ok shaderManifest |}.

Definition boneWithParent (p : Z) : Main.BoneData :=
  {| Main.bone_name := None; Main.pos := None; Main.rotq := None;
     Main.scl := None; Main.parent := Some p |}.

(** The bone sequences [{parent:-1},{parent:5}], [{parent:-1},{parent:-1}]
    and [{parent:1},{parent:-1}]. *)
Definition bones_parent_5 : list Main.BoneData :=
  [boneWithParent (-1); boneWithParent 5].
Definition bones_two_roots : list Main.BoneData :=
  [boneWithParent (-1); boneWithParent (-1)].
Definition bones_forward : list Main.BoneData :=
  [boneWithParent 1; boneWithParent (-1)].

(** A runtime whose tangent is the nearest double, a bounding box without
    extent and a centre that is not a number. *)
Definition Math_tan (_ : PrimFloat.float) : PrimFloat.float := Spec.tan_22_5.
Definition flat : Main.Vector3 :=
  {| Main.x := PrimFloat.zero; Main.y := PrimFloat.zero; Main.z := PrimFloat.zero |}.
Definition nowhere : Main.Vector3 :=
  {| Main.x := PrimFloat.one; Main.y := PrimFloat.nan; Main.z := PrimFloat.two |}.

(** A loader that fails on the item 222 and delivers a geometry without
    bones for every other item. *)
Definition loader (i : nat) (itemHash : Z) (options : Main.Options)
    : Main.LoaderResult :=
  if itemHash =? 222
  then Main.loaderOnError {| name := "Error"; message := "404" |}
  else Main.loaderOnLoad {| Main.bones := None |}.

(** A loader that delivers, for the item 222, a geometry with bones, one
    skin index and no skin weight, on which the callback throws, and a
    geometry without bones for every other item. *)
Definition loader_malformed (i : nat) (itemHash : Z) (options : Main.Options)
    : Main.LoaderResult :=
  if itemHash =? 222
  then Main.loaderOnLoadThrows None
         (TypeError "Cannot read properties of undefined (reading 'x')")
  else Main.loaderOnLoad {| Main.bones := None |}.

(** A loader that fails on every item. *)
Definition loader_down (i : nat) (itemHash : Z) (options : Main.Options)
    : Main.LoaderResult :=
  Main.loaderOnError {| name := "Error"; message := "503" |}.

Definition boundingBox (group : list Main.Mesh) : Main.Vector3 * Main.Vector3 :=
  (flat, flat).

End Sample.

(** ** BungieAuth.js: tokens, OAuth callback, authenticated requests *)

Module Auth.
Import Js.

(** [OAUTH_CONFIG], of which the functions below read these. *)
Record Config := { clientId : string; clientSecret : string; apiKey : string }.

(** The object [storeTokens] builds and [getStoredTokens] gives back. A
    field that is [undefined] (or, for [expiresAt], not a finite number:
    [JSON.stringify] writes [null] for it) is [None]. *)
Record Tokens := {
  accessToken : option string;
  refreshToken : option string;
  expiresAt : option Z;
  tokens_membershipId : option string }.

(** The body of the answer of the token endpoint; [expires_in] is a
    number of seconds without fraction. *)
Record TokenResponse := {
  access_token : option string;
  refresh_token : option string;
  expires_in : option Z;
  membership_id : option string }.

(** An entry of [destinyMemberships]. *)
Record Membership := {
  m_membershipType : Z;
  m_membershipId : option string;
  bungieGlobalDisplayName : option string;
  m_displayName : option string;
  m_iconPath : option string }.

(** The object [getCurrentUserMembership] returns and caches. *)
Record MembershipInfo := {
  membershipType : Z;
  membershipId : option string;
  displayName : option string;
  iconPath : option string }.

(** A text kept in [localStorage], by what the code makes of it: the empty
    string (falsy), a text [JSON.parse] throws on, the text of [null], or
    the text of a value whose fields read as those of [a]. What
    [JSON.stringify] writes for [a] is [objectText a]. *)
Inductive Text (A : Type) : Type :=
| emptyText
| malformedText
| nullText
| objectText (a : A).
Arguments emptyText {A}.
Arguments malformedText {A}.
Arguments nullText {A}.
Arguments objectText {A} a.

(** One call of [fetch]. *)
Record Request := {
  url : string;
  method : string;
  headers : gmap string string;
  body : gmap string string }.

(** A response: its status, its text, and what [response.json()] gives. *)
Record Response (A : Type) := {
  status : Z;
  text : string;
  json : result A }.
Arguments status {A} r.
Arguments text {A} r.
Arguments json {A} r.

(** [response.ok]: the status is in the range 200-299. *)
Definition ok {A} (r : Response A) : bool :=
  (200 <=? status r) && (status r <=? 299).

(** What [fetch] does: its promise rejects, or resolves with a response. *)
Inductive Net (A : Type) : Type :=
| netError (e : Exn)
| netResponse (r : Response A).
Arguments netError {A} e.
Arguments netResponse {A} r.

(** The envelope of an answer of the Bungie API. *)
Record Envelope (A : Type) := {
  ErrorCode : Z;
  Message : string;
  Response_ : option A }.
Arguments ErrorCode {A} e.
Arguments Message {A} e.
Arguments Response_ {A} e.

Record Memberships := {
  destinyMemberships : list Membership;
  primaryMembershipId : option string }.

(** The parameters of [window.location.search] the callback reads;
    [URLSearchParams.get] gives [null] for an absent one. *)
Record Search := {
  code : option string;
  state : option string;
  error : option string }.

Definition noSearch : Search := {| code := None; state := None; error := None |}.

(** The browser state the functions read and write: the two keys of
    [localStorage], the key of [sessionStorage], the query of the page,
    and the requests sent so far, oldest first. *)
Record World := {
  bungie_oauth_tokens : option (Text Tokens);
  bungie_membership : option (Text MembershipInfo);
  oauth_state : option string;
  search : Search;
  requests : list Request }.

Definition Error (msg : string) : Exn := {| name := "Error"; message := msg |}.
Definition SyntaxError (msg : string) : Exn :=
  {| name := "SyntaxError"; message := msg |}.

(** Truthiness of a value that is a string or absent. *)
Definition truthyString (s : option string) : bool :=
  match s with
  | Some s => negb (String.eqb s "")
  | None => false
  end.

(** [getStoredTokens()], at the time [now] of [Date.now()]. Reading
    [expiresAt] of [null] throws inside the [try]. *)
Definition getStoredTokens (now : Z) (w : World) : option Tokens :=
  match bungie_oauth_tokens w with
  | None | Some emptyText => None
  | Some malformedText => None
  | Some nullText => None
  | Some (objectText tokens) =>
      match expiresAt tokens with
      | Some e => if truthy e && (e <? now) then None else Some tokens
      | None => Some tokens
      end
  end.

(** Numbers are doubles. [toDouble z] is the double nearest to the integer
    [z], ties to the even significand: [z] itself below 2^53 in absolute
    value, a multiple of a power of two with 53 significant bits above,
    and no finite number ([None]) from 2^1024 on. *)
Definition toDouble (z : Z) : option Z :=
  let n := Z.abs z in
  if n <? 2 ^ 53 then Some z
  else
    let k := Z.log2 n - 52 in
    let q := n / 2 ^ k in
    let r := n mod 2 ^ k in
    let half := 2 ^ (k - 1) in
    let q := if (half <? r) || ((r =? half) && Z.odd q) then q + 1 else q in
    let m := q * 2 ^ k in
    if m <? 2 ^ 1024 then Some (Z.sgn z * m) else None.

(** [Date.now() + (expires_in * 1000)]: the product and the sum are each
    rounded to a double; an infinity stays one. *)
Definition expiryOf (now expires_in : Z) : option Z :=
  e ← toDouble expires_in;
  ms ← toDouble (e * 1000);
  toDouble (now + ms).

(** [storeTokens(tokenResponse)]; an absent [expires_in] makes
    [expiresAt] NaN. *)
Definition storeTokens (now : Z) (tokenResponse : TokenResponse) (w : World)
    : Tokens * World :=
  let tokens :=
    {| accessToken := access_token tokenResponse;
       refreshToken := refresh_token tokenResponse;
       expiresAt := expires_in tokenResponse ≫= expiryOf now;
       tokens_membershipId := membership_id tokenResponse |} in
  (tokens,
   {| bungie_oauth_tokens := Some (objectText tokens);
      bungie_membership := bungie_membership w;
      oauth_state := oauth_state w;
      search := search w;
      requests := requests w |}).

(** [clearTokens()] *)
Definition clearTokens (w : World) : World :=
  {| bungie_oauth_tokens := None;
     bungie_membership := None;
     oauth_state := oauth_state w;
     search := search w;
     requests := requests w |}.

(** [isAuthenticated()] *)
Definition isAuthenticated (now : Z) (w : World) : bool :=
  match getStoredTokens now w with
  | Some _ => true
  | None => false
  end.

Definition sent (req : Request) (w : World) : World :=
  {| bungie_oauth_tokens := bungie_oauth_tokens w;
     bungie_membership := bungie_membership w;
     oauth_state := oauth_state w;
     search := search w;
     requests := requests w ++ [req] |}.

Section WithConfig.

Variable cfg : Config.

(** [fetchWithAuth(endpoint, options)]. [fetch] is what the network
    answers to a request, given how many were sent before it. The headers
    of the caller come last in the object literal and win. *)
Definition fetchWithAuth {A} (fetch : nat → Request → Net A) (now : Z)
    (endpoint : string) (options_headers : gmap string string) (w : World)
    : result (Response A) * World :=
  match getStoredTokens now w with
  | None => (Throw (Error "Not authenticated"), w)
  | Some tokens =>
      let headers :=
        options_headers ∪
        {[ "X-API-Key" := apiKey cfg;
           "Authorization" :=
             "Bearer " +:+ or_else (accessToken tokens) "undefined" ]} in
      let req :=
        {| url := "/bungie" +:+ endpoint; method := "GET";
           headers := headers; body := ∅ |} in
      let n := length (requests w) in
      let w := sent req w in
      match fetch n req with
      | netError e => (Throw e, w)
      | netResponse response =>
          if status response =? 401
          then (Throw (Error "Authentication expired"), clearTokens w)
          else (Ok response, w)
      end
  end.

(** [a || b] on display names. *)
Definition displayNameOf (membership : Membership) : option string :=
  if truthyString (bungieGlobalDisplayName membership)
  then bungieGlobalDisplayName membership
  else m_displayName membership.

(** The membership [getCurrentUserMembership] picks: the one of the
    primary id, else the first. *)
Definition pickMembership (data : Memberships) : option Membership :=
  match find (λ m, bool_decide (m_membershipId m = primaryMembershipId data))
          (destinyMemberships data) with
  | Some membership => Some membership
  | None => head (destinyMemberships data)
  end.

Definition cacheMembership (info : MembershipInfo) (w : World) : World :=
  {| bungie_oauth_tokens := bungie_oauth_tokens w;
     bungie_membership := Some (objectText info);
     oauth_state := oauth_state w;
     search := search w;
     requests := requests w |}.

(** [getCurrentUserMembership()]. The cached text is parsed outside any
    [try]. *)
Definition getCurrentUserMembership
    (fetch : nat → Request → Net (Envelope Memberships)) (now : Z) (w : World)
    : result (option MembershipInfo) * World :=
  match bungie_membership w with
  | Some (objectText cached) => (Ok (Some cached), w)
  | Some nullText => (Ok None, w)
  | Some malformedText => (Throw (SyntaxError "Unexpected token"), w)
  | Some emptyText | None =>
      match fetchWithAuth fetch now
              "/Platform/User/GetMembershipsForCurrentUser/" ∅ w with
      | (Throw e, w) => (Throw e, w)
      | (Ok response, w) =>
          if negb (ok response)
          then (Throw (Error ("Failed to get memberships: "
                                +:+ pretty (status response))), w)
          else
            match json response with
            | Throw e => (Throw e, w)
            | Ok data =>
                if negb (ErrorCode data =? 1)
                then (Throw (Error ("Bungie API error: " +:+ Message data)), w)
                else
                  match Response_ data with
                  | None =>
                      (Throw (TypeError
                         "Cannot read properties of undefined (reading 'destinyMemberships')"), w)
                  | Some memberships =>
                      match pickMembership memberships with
                      | None =>
                          (Throw (Error "No Destiny 2 membership found"), w)
                      | Some membership =>
                          let membershipInfo :=
                            {| membershipType := m_membershipType membership;
                               membershipId := m_membershipId membership;
                               displayName := displayNameOf membership;
                               iconPath := m_iconPath membership |} in
                          (Ok (Some membershipInfo),
                           cacheMembership membershipInfo w)
                      end
                  end
            end
      end
  end.

(** [getCharacterEquipment(membershipType, membershipId)]; it returns
    [data.Response], which may be absent. *)
Definition getCharacterEquipment
    (fetch : nat → Request → Net (Envelope BungieAuth.ProfileData)) (now : Z)
    (membershipType : Z) (membershipId : option string) (w : World)
    : result (option BungieAuth.ProfileData) * World :=
  let components := "200,203,205,305" in
  match fetchWithAuth fetch now
          ("/Platform/Destiny2/" +:+ pretty membershipType +:+ "/Profile/"
             +:+ or_else membershipId "undefined" +:+ "/?components="
             +:+ components) ∅ w with
  | (Throw e, w) => (Throw e, w)
  | (Ok response, w) =>
      if negb (ok response)
      then (Throw (Error ("Failed to get profile: "
                            +:+ pretty (status response))), w)
      else
        match json response with
        | Throw e => (Throw e, w)
        | Ok data =>
            if negb (ErrorCode data =? 1)
            then (Throw (Error ("Bungie API error: " +:+ Message data)), w)
            else (Ok (Response_ data), w)
        end
  end.

(** The request of the token exchange. *)
Definition tokenRequest (code : string) : Request :=
  {| url := "/bungie/Platform/App/OAuth/token/";
     method := "POST";
     headers :=
       {[ "Content-Type" := "application/x-www-form-urlencoded";
          "X-API-Key" := apiKey cfg ]};
     body :=
       {[ "grant_type" := "authorization_code";
          "code" := code;
          "client_id" := clientId cfg;
          "client_secret" := clientSecret cfg ]} |}.

Definition withoutState (w : World) : World :=
  {| bungie_oauth_tokens := bungie_oauth_tokens w;
     bungie_membership := bungie_membership w;
     oauth_state := None;
     search := search w;
     requests := requests w |}.

Definition withoutSearch (w : World) : World :=
  {| bungie_oauth_tokens := bungie_oauth_tokens w;
     bungie_membership := bungie_membership w;
     oauth_state := oauth_state w;
     search := noSearch;
     requests := requests w |}.

(** The browser opens the page with the query [s]. *)
Definition visit (s : Search) (w : World) : World :=
  {| bungie_oauth_tokens := bungie_oauth_tokens w;
     bungie_membership := bungie_membership w;
     oauth_state := oauth_state w;
     search := s;
     requests := requests w |}.

(** [handleOAuthCallback()]. [state !== storedState] compares two values
    that are each a string or [null]. *)
Definition handleOAuthCallback (fetch : nat → Request → Net TokenResponse)
    (now : Z) (w : World) : result (option Tokens) * World :=
  let urlParams := search w in
  if truthyString (error urlParams)
  then (Throw (Error ("OAuth error: " +:+ or_else (error urlParams) "")), w)
  else if negb (truthyString (code urlParams))
  then (Ok None, w)
  else if negb (bool_decide (state urlParams = oauth_state w))
  then (Throw (Error "Invalid OAuth state"), w)
  else
    let w := withoutState w in
    let req := tokenRequest (or_else (code urlParams) "") in
    let n := length (requests w) in
    let w := sent req w in
    match fetch n req with
    | netError e => (Throw e, w)
    | netResponse tokenResponse =>
        if negb (ok tokenResponse)
        then (Throw (Error ("Token exchange failed: "
                              +:+ pretty (status tokenResponse))), w)
        else
          match json tokenResponse with
          | Throw e => (Throw e, w)
          | Ok tokenData =>
              let '(tokens, w) := storeTokens now tokenData w in
              (Ok (Some tokens), withoutSearch w)
          end
    end.

End WithConfig.

End Auth.

(** ** DestinyMaterial.js *)

Module DestinyMaterial.
Import Js PrimFloat.

(** A texture, by a number that tells it from the others. *)
Definition Texture := nat.

(** A colour given as a [THREE.Color] or as a number; both as the hex
    value of the colour. A colour object is truthy, the number 0 is
    not. *)
Inductive ColorInput :=
| colorInstance (hex : Z)
| colorNumber (hex : Z).

Definition colorTruthy (c : option ColorInput) : bool :=
  match c with
  | Some (colorInstance _) => true
  | Some (colorNumber n) => truthy n
  | None => false
  end.

(** [c.clone()] or [new THREE.Color(c)]: the colour, as its hex value. *)
Definition toColor (c : ColorInput) : Z :=
  match c with colorInstance hex | colorNumber hex => hex end.

Inductive Side := FrontSide | BackSide | DoubleSide.

(** [userData.destinyParams], as either function fills it. *)
Record DestinyParams := {
  p_gearstackMap : option Texture;
  p_detailMap : option Texture;
  p_detailNormalMap : option Texture;
  p_primaryColor : ColorInput;
  p_secondaryColor : ColorInput;
  p_wornColor : option ColorInput;
  p_usePrimaryColor : bool;
  p_dyeParams : gmap string string;
  originalMaterialType : option string }.

(** [userData.destinyUniforms] and [userData.shader.uniforms]. *)
Record Uniforms := {
  u_primaryColor : Z;
  u_secondaryColor : Z;
  u_usePrimaryColor : float }.

(** A [THREE.MeshStandardMaterial], by the parameters it was made with
    ([None]: not given, the default of three.js applies), the colour
    assigned to it afterwards, and its [userData]. *)
Record Material := {
  map : option Texture;
  normalMap : option Texture;
  normalScale : option (float * float);
  aoMap : option Texture;
  aoMapIntensity : option float;
  emissiveMap : option Texture;
  emissive : option Z;
  emissiveIntensity : option float;
  color : option Z;
  side : option Side;
  transparent : option bool;
  alphaTest : option float;
  roughness : float;
  metalness : float;
  destinyParams : option DestinyParams;
  destinyUniforms : option Uniforms;
  shader : option Uniforms }.

(** The [params] of [createDestinyMaterial]; a field that is [undefined]
    takes its default in the destructuring. *)
Record Params := {
  diffuseMap : option Texture;
  in_normalMap : option Texture;
  gearstackMap : option Texture;
  detailMap : option Texture;
  detailNormalMap : option Texture;
  primaryColor : option ColorInput;
  secondaryColor : option ColorInput;
  usePrimaryColor : option bool;
  dyeParams : option (gmap string string);
  in_side : option Side;
  in_transparent : option bool;
  in_alphaTest : option float }.

Definition isSome {A} (o : option A) : bool :=
  match o with Some _ => true | None => false end.

(** [createDestinyMaterial(params)] *)
Definition createDestinyMaterial (params : Params) : Material :=
  let primaryColor := or_else (primaryColor params) (colorNumber 0x888888) in
  let secondaryColor := or_else (secondaryColor params) (colorNumber 0x444444) in
  let usePrimaryColor := or_else (usePrimaryColor params) true in
  {| map := diffuseMap params;
     normalMap := in_normalMap params;
     normalScale := None;
     aoMap := None;
     aoMapIntensity := None;
     emissiveMap := None;
     emissive := None;
     emissiveIntensity := None;
     color :=
       if negb (isSome (diffuseMap params))
          && (isSome (gearstackMap params) || isSome (detailMap params))
       then Some (toColor (if usePrimaryColor then primaryColor else secondaryColor))
       else None;
     side := Some (or_else (in_side params) DoubleSide);
     transparent := Some (or_else (in_transparent params) false);
     alphaTest := Some (or_else (in_alphaTest params) 0%float);
     roughness := 0.5%float;
     metalness := 0%float;
     destinyParams :=
       Some {| p_gearstackMap := gearstackMap params;
               p_detailMap := detailMap params;
               p_detailNormalMap := detailNormalMap params;
               p_primaryColor := primaryColor;
               p_secondaryColor := secondaryColor;
               p_wornColor := None;
               p_usePrimaryColor := usePrimaryColor;
               p_dyeParams := or_else (dyeParams params) ∅;
               originalMaterialType := None |};
     destinyUniforms := None;
     shader := None |}.

Definition setUniforms (material : Material) (uniforms : Uniforms)
    (shader : option Uniforms) : Material :=
  {| map := map material; normalMap := normalMap material;
     normalScale := normalScale material; aoMap := aoMap material;
     aoMapIntensity := aoMapIntensity material;
     emissiveMap := emissiveMap material; emissive := emissive material;
     emissiveIntensity := emissiveIntensity material;
     color := color material; side := side material;
     transparent := transparent material; alphaTest := alphaTest material;
     roughness := roughness material; metalness := metalness material;
     destinyParams := destinyParams material;
     destinyUniforms := Some uniforms;
     shader := shader |}.

(** [updateDestinyDye(material, primaryColor, secondaryColor, usePrimary)]:
    the material as the call leaves it. *)
Definition updateDestinyDye (material : Material)
    (primaryColor secondaryColor : ColorInput) (usePrimary : option bool)
    : Material :=
  match destinyUniforms material with
  | None => material
  | Some _ =>
      let uniforms :=
        {| u_primaryColor := toColor primaryColor;
           u_secondaryColor := toColor secondaryColor;
           u_usePrimaryColor :=
             if or_else usePrimary true then 1%float else 0%float |} in
      setUniforms material uniforms
        (match shader material with
         | Some _ => Some uniforms
         | None => None
         end)
  end.

(** An entry of the material array of the loader, by the properties
    [convertTGXMaterials] reads. *)
Record TGXMaterial := {
  tgx_map : option Texture;
  tgx_normalMap : option Texture;
  tgx_gearstackMap : option Texture;
  tgx_emissiveMap : option Texture;
  tgx_primaryColor : option ColorInput;
  tgx_secondaryColor : option ColorInput;
  tgx_wornColor : option ColorInput;
  tgx_usePrimaryColor : option bool;
  tgx_metalness : option float;
  tgx_roughness : option float;
  tgx_type : option string;
  tgx_constructor_name : option string }.

(** The material made for a [null] or [undefined] entry. *)
Definition grayMaterial : Material :=
  {| map := None; normalMap := None; normalScale := None; aoMap := None;
     aoMapIntensity := None; emissiveMap := None; emissive := None;
     emissiveIntensity := None;
     color := Some 0x888888;
     side := Some DoubleSide; transparent := None; alphaTest := None;
     roughness := 0.5%float; metalness := 0x1.3333333333333p-2%float;
     destinyParams := None; destinyUniforms := None; shader := None |}.

(** The colour read from a property of the entry, or the default. *)
Definition colorOr (c : option ColorInput) (default : Z) : Z :=
  if colorTruthy c then toColor (or_else c (colorNumber default)) else default.

(** The callback of [tgxMaterials.map]. *)
Definition convertOne (mat : option TGXMaterial) : Material :=
  match mat with
  | None => grayMaterial
  | Some mat =>
      let diffuseMap := tgx_map mat in
      let normalMap := tgx_normalMap mat in
      let gearstackMap := tgx_gearstackMap mat in
      let emissiveMap := tgx_emissiveMap mat in
      let primaryColor := colorOr (tgx_primaryColor mat) 0xffffff in
      let secondaryColor := colorOr (tgx_secondaryColor mat) 0x888888 in
      let wornColor := colorOr (tgx_wornColor mat) 0x666666 in
      let usePrimaryColor := or_else (tgx_usePrimaryColor mat) true in
      let metalness := or_else (tgx_metalness mat) 0%float in
      let roughness := or_else (tgx_roughness mat) 0.5%float in
      let dyeColor := if usePrimaryColor then primaryColor else secondaryColor in
      {| map := diffuseMap;
         color := if isSome diffuseMap then None else Some dyeColor;
         normalMap := normalMap;
         normalScale := if isSome normalMap then Some (1, 1)%float else None;
         aoMap := gearstackMap;
         aoMapIntensity := if isSome gearstackMap then Some 1%float else None;
         emissiveMap := emissiveMap;
         emissive := if isSome emissiveMap then Some 0xffffff else None;
         emissiveIntensity := if isSome emissiveMap then Some 1%float else None;
         side := Some DoubleSide;
         transparent := None;
         alphaTest := None;
         roughness := roughness;
         metalness := metalness;
         destinyParams :=
           Some {| p_gearstackMap := gearstackMap;
                   p_detailMap := None;
                   p_detailNormalMap := None;
                   p_primaryColor := colorInstance primaryColor;
                   p_secondaryColor := colorInstance secondaryColor;
                   p_wornColor := Some (colorInstance wornColor);
                   p_usePrimaryColor := usePrimaryColor;
                   p_dyeParams := ∅;
                   originalMaterialType :=
                     if Auth.truthyString (tgx_type mat) then tgx_type mat
                     else tgx_constructor_name mat |};
         destinyUniforms := None;
         shader := None |}
  end.

(** [convertTGXMaterials(tgxMaterials)]; [None] is an argument that is
    not an array. *)
Definition convertTGXMaterials (tgxMaterials : option (list (option TGXMaterial)))
    : list Material :=
  match tgxMaterials with
  | None => []
  | Some mats => List.map convertOne mats
  end.

End DestinyMaterial.

(** ** The viewer script: [addMeshToScene] and [init] *)

Module App.
Import Js Auth Main.

(** The item shown when no character can be: Ace of Spades. *)
Definition ITEM_HASH : Z := 1345867571.

(** What [init] leaves on the page once nothing more of it runs: the
    status line and the scene, whether the login button is displayed, the
    characters the selector offers when it is displayed (one button per
    own property of the object it was given), and whether the page was
    sent to the callback page. The elements [init] writes to are those of
    index.html and are there. *)
Record Ui := {
  page : Page;
  loginButton : bool;
  selector : option (gmap string BungieAuth.Character);
  redirected : bool }.

Definition noOptions : Options :=
  {| shaderHash := None; opt_itemDyes := None; shaderDyes := None |}.

Section Init.

Variable cfg : Config.
(** The answers of the two endpoints of the API and of the model loader. *)
Variable fetchMemberships : nat → Request → Net (Envelope Memberships).
Variable fetchProfile : nat → Request → Net (Envelope BungieAuth.ProfileData).
Variable load : nat → Z → Options → LoaderResult.
Variable Math_tan : PrimFloat.float → PrimFloat.float.
Variable boundingBox : list Mesh → Vector3 * Vector3.
(** [Date.now()] at its first, second and third reading. *)
Variable now : nat → Z.

(** [addMeshToScene(mesh)]: the mesh alone in a group. *)
Definition addMeshToScene (mesh : Mesh) : Page :=
  addGroupToScene Math_tan boundingBox [mesh].

(** [try { const mesh = await loadModel(ITEM_HASH); addMeshToScene(mesh); }
     catch { updateStatus(failed); }]; a failed load leaves the scene as it
    was, and a load that is never settled leaves the status line of
    [loadModel] too. *)
Definition loadTestModel (failed : string) (before : Page) : Page :=
  let loaded := load 0%nat ITEM_HASH noOptions in
  match loadModel loaded ITEM_HASH with
  | Resolved mesh => addMeshToScene mesh
  | Rejected _ => {| status := failed; scene := scene before |}
  | Pending =>
      {| status :=
           match loaded with
           | loaderOnLoadThrows progress _ | loaderSilent progress =>
               loadingStatus progress ITEM_HASH
           | _ => loadingStatus None ITEM_HASH
           end;
         scene := scene before |}
  end.

(** The calls of the [try] block of the authenticated branch up to the
    profile: the profile, or what was thrown. *)
Definition loadProfile (w : World)
    : result BungieAuth.ProfileData * World :=
  match getCurrentUserMembership cfg fetchMemberships (now 1%nat) w with
  | (Throw e, w) => (Throw e, w)
  | (Ok None, w) =>
      (Throw (TypeError
         "Cannot read properties of null (reading 'membershipType')"), w)
  | (Ok (Some membership), w) =>
      match getCharacterEquipment cfg fetchProfile (now 2%nat)
              (membershipType membership) (membershipId membership) w with
      | (Throw e, w) => (Throw e, w)
      | (Ok None, w) =>
          (Throw (TypeError
             "Cannot read properties of undefined (reading 'characters')"), w)
      | (Ok (Some profileData), w) => (Ok profileData, w)
      end
  end.

(** The [catch] of the authenticated branch and the branch without
    tokens: the login button and the test model. *)
Definition fallback (failed : string)
    (selector : option (gmap string BungieAuth.Character)) (ui : Ui) : Ui :=
  {| page := loadTestModel failed (page ui);
     loginButton := true;
     selector := selector;
     redirected := false |}.

(** [init()], from the page as it is. [profileData.characters.data] throws
    for a profile without the component; [showCharacterSelector] displays
    its container before [Object.entries(characters)], which throws for
    [undefined]. *)
Definition init (ui : Ui) (w : World) : Ui * World :=
  if truthyString (code (search w))
  then ({| page := page ui; loginButton := loginButton ui;
           selector := selector ui; redirected := true |}, w)
  else if isAuthenticated (now 0%nat) w
  then
    match loadProfile w with
    | (Ok profileData, w) =>
        match BungieAuth.characters profileData with
        | BungieAuth.withData characters =>
            ({| page := {| status := "Obteniendo datos del perfil...";
                           scene := scene (page ui) |};
                loginButton := false;
                selector := Some characters;
                redirected := false |}, w)
        | BungieAuth.noData =>
            (fallback "Error cargando modelo" (Some ∅) ui, w)
        | BungieAuth.noComponent =>
            (fallback "Error cargando modelo" (selector ui) ui, w)
        end
    | (Throw _, w) => (fallback "Error cargando modelo" (selector ui) ui, w)
    end
  else (fallback "Error cargando modelo de prueba" (selector ui) ui, w).

End Init.

End App.

(** ** Inputs to run the functions of the session on *)

Module Session.
Import Js Auth.

Definition cfg : Config :=
  {| clientId := "12345"; clientSecret := "secret"; apiKey := "key" |}.

Definition tokenData : TokenResponse :=
  {| access_token := Some "abc"; refresh_token := Some "def";
     expires_in := Some 3600; membership_id := Some "77" |}.

(** A browser with nothing stored, back from the login page with a code
    and the state it had kept. *)
Definition returning : World :=
  {| bungie_oauth_tokens := None; bungie_membership := None;
     oauth_state := Some "k3x9";
     search := {| code := Some "c0de"; state := Some "k3x9"; error := None |};
     requests := [] |}.

(** The same, but the state of the page is not the one kept. *)
Definition forged : World :=
  {| bungie_oauth_tokens := None; bungie_membership := None;
     oauth_state := Some "k3x9";
     search := {| code := Some "c0de"; state := Some "evil"; error := None |};
     requests := [] |}.

Definition tokenEndpoint (n : nat) (req : Request) : Net TokenResponse :=
  netResponse {| status := 200; text := ""; json := Ok tokenData |}.

Definition alice : Membership :=
  {| m_membershipType := 3; m_membershipId := Some "4611686018000000001";
     bungieGlobalDisplayName := Some "Alice"; m_displayName := Some "alice#1";
     m_iconPath := Some "/img/steam.png" |}.

Definition bob : Membership :=
  {| m_membershipType := 1; m_membershipId := Some "4611686018000000002";
     bungieGlobalDisplayName := Some ""; m_displayName := Some "bob";
     m_iconPath := None |}.

Definition memberships : Memberships :=
  {| destinyMemberships := [alice; bob];
     primaryMembershipId := Some "4611686018000000002" |}.

Definition membershipsEndpoint (n : nat) (req : Request)
    : Net (Envelope Memberships) :=
  netResponse {| status := 200; text := "";
                 json := Ok {| ErrorCode := 1; Message := "Ok";
                               Response_ := Some memberships |} |}.

(** An API that answers 401 to everything. *)
Definition unauthorized {A} (n : nat) (req : Request) : Net A :=
  netResponse {| status := 401; text := "";
                 json := Throw (SyntaxError "Unexpected end of JSON input") |}.

Definition profileEndpoint (n : nat) (req : Request)
    : Net (Envelope BungieAuth.ProfileData) :=
  netResponse {| status := 200; text := "";
                 json := Ok {| ErrorCode := 1; Message := "Ok";
                               Response_ := Some Sample.profile |} |}.

(** A browser that holds tokens that expire at time 5000. *)
Definition loggedIn : World :=
  {| bungie_oauth_tokens :=
       Some (objectText {| accessToken := Some "abc"; refreshToken := None;
                           expiresAt := Some 5000;
                           tokens_membershipId := Some "77" |});
     bungie_membership := None;
     oauth_state := None;
     search := noSearch;
     requests := [] |}.

(** The same browser with a membership cache that is not JSON. *)
Definition corrupt : World :=
  {| bungie_oauth_tokens := bungie_oauth_tokens loggedIn;
     bungie_membership := Some malformedText;
     oauth_state := None;
     search := noSearch;
     requests := [] |}.

Definition blank : App.Ui :=
  {| App.page := {| Main.status := ""; Main.scene := None |};
     App.loginButton := false; App.selector := None;
     App.redirected := false |}.

End Session.

(** ** Profiles that differ in one component *)

Module Variation.
Import BungieAuth.

(** The profile with another socket component. *)
Definition withSockets (sockets_data : option (gmap string SocketsEntry))
    (p : ProfileData) : ProfileData :=
  {| characters := characters p;
     characterEquipment := characterEquipment p;
     itemComponents_sockets_data := sockets_data;
     characterRenderData_data := characterRenderData_data p |}.

(** The profile with other items equipped on a character, in the data of
    its equipment component when it has data. *)
Definition withItems (characterId : string) (its : list EquippedItem)
    (p : ProfileData) : ProfileData :=
  {| characters := characters p;
     characterEquipment :=
       match characterEquipment p with
       | withData equipment =>
           withData (<[characterId := {| items := Some its |}]> equipment)
       | absent => absent
       end;
     itemComponents_sockets_data := itemComponents_sockets_data p;
     characterRenderData_data := characterRenderData_data p |}.

(** The item sits in one of the five armor buckets. *)
Definition isArmor (item : EquippedItem) : bool :=
  existsb (λ b, bucketHash item =? snd b) ARMOR_BUCKETS.

(** Every parent of the bone sequence is negative or the index of an
    earlier bone. *)
Definition parentsPrecede (boneDatas : list Main.BoneData) : Prop :=
  ∀ (i : nat) boneData p,
    boneDatas !! i = Some boneData → Main.parent boneData = Some p →
    p < Z.of_nat i.

End Variation.

(** * Properties *)

(** ** Equipment resolution *)

Section EquipmentResolver.
Import Js BungieAuth.

Implicit Types (items : list EquippedItem) (acc : Arrays).
Implicit Types (itemSockets : gmap string SocketsEntry).
Implicit Types (peerViewEquipment : list PeerItem).

(** What a turn of the loop pushes for the item it found. *)
Local Abbreviation detailOf b item :=
  {| bucket := fst b; ad_itemHash := itemHash item;
     instanceId := itemInstanceId item |}.

(** The three arrays after the loop over any list of buckets: one entry per
    bucket for which an item is found, pushed to the three arrays at the
    same turn. *)
Lemma fold_bucketStep items itemSockets peerViewEquipment bs acc :
  let r := fold_left (bucketStep items itemSockets peerViewEquipment) bs acc in
  armorItems r =
    armorItems acc ++
    omap (λ b, (λ item, detailOf b item) <$> findItem items (snd b)) bs
  ∧ arr_shaderHashes r =
    arr_shaderHashes acc ++
    omap (λ b, (λ item, shaderHashOf (socketsOf itemSockets (itemInstanceId item)))
                 <$> findItem items (snd b)) bs
  ∧ arr_itemDyes r =
    arr_itemDyes acc ++
    omap (λ b, (λ item, dyesFor peerViewEquipment (itemHash item))
                 <$> findItem items (snd b)) bs.
Proof.
  revert acc. induction bs as [|b bs IH]; intros acc; cbn.
  - by rewrite !app_nil_r.
  - destruct (IH (bucketStep items itemSockets peerViewEquipment acc b))
      as (H1 & H2 & H3).
    cbn in H1, H2, H3. rewrite H1, H2, H3. clear.
    unfold bucketStep. destruct (findItem items (snd b)) as [item|]; cbn.
    + by rewrite <- !app_assoc.
    + done.
Qed.

Lemma findItem_Some items h item :
  findItem items h = Some item → item ∈ items ∧ bucketHash item = h.
Proof.
  unfold findItem. intros H. apply find_some in H as [Hin Heq].
  split; [by apply list_elem_of_In | by apply Z.eqb_eq].
Qed.

Lemma findItem_is_Some items h :
  is_Some (findItem items h) ↔ ∃ item, item ∈ items ∧ bucketHash item = h.
Proof.
  split.
  - intros [item H]. exists item. by apply findItem_Some.
  - intros (item & Hin & Heq). unfold findItem.
    destruct (find _ items) as [found|] eqn:Hfind; [by eexists|].
    apply list_elem_of_In in Hin.
    apply (find_none _ _ Hfind) in Hin. apply Z.eqb_neq in Hin. done.
Qed.

(** The buckets of the entries are the buckets of [bs] for which an item is
    found, in the order of [bs]. *)
Lemma buckets_of_omap items (bs : list (string * Z)) :
  map bucket
    (omap (λ b, (λ item, detailOf b item) <$> findItem items (snd b)) bs)
  = map fst (filter (λ b, is_Some (findItem items (snd b))) bs).
Proof.
  induction bs as [|b bs IH]; [done|].
  rewrite filter_cons. cbn [omap list_omap].
  destruct (findItem items (snd b)) as [item|] eqn:Hf.
  - rewrite decide_True by (by eexists). cbn. by rewrite <- IH.
  - rewrite decide_False by (by intros [? ?]). done.
Qed.

Lemma parse_Ok p characterId r :
  parseEquipmentForLoader p characterId = Ok r →
  let arrays :=
    armorLoop (itemsOf p characterId)
      (or_else (itemComponents_sockets_data p) ∅)
      (peerViewEquipmentOf p characterId) in
  armorDetails r = armorItems arrays
  ∧ itemHashes r = map ad_itemHash (armorItems arrays)
  ∧ shaderHashes r = arr_shaderHashes arrays
  ∧ itemDyes r = arr_itemDyes arrays
  ∧ ∃ chars equipment,
      characters p = withData chars ∧ characterEquipment p = withData equipment
      ∧ getProperty chars characterId ≠ noValue.
Proof.
  unfold parseEquipmentForLoader, itemsOf.
  destruct (characters p) as [| |chars]; [by destruct (characterEquipment p)..|].
  destruct (characterEquipment p) as [| |equipment]; [done..|].
  destruct (getProperty chars characterId) eqn:Hc; [|
    |done]; intros [= <-]; cbn; (do 4 (split; [done|]));
    exists chars, equipment; by rewrite Hc.
Qed.

Lemma parse_buckets p characterId r :
  parseEquipmentForLoader p characterId = Ok r →
  map bucket (armorDetails r)
  = map fst (filter (λ b, is_Some (findItem (itemsOf p characterId) (snd b)))
               ARMOR_BUCKETS).
Proof.
  intros H. apply parse_Ok in H as (-> & _).
  unfold armorLoop.
  destruct (fold_bucketStep (itemsOf p characterId)
              (or_else (itemComponents_sockets_data p) ∅)
              (peerViewEquipmentOf p characterId) ARMOR_BUCKETS noArrays)
    as (-> & _).
  cbn [armorItems noArrays app]. apply buckets_of_omap.
Qed.

Lemma ARMOR_BUCKETS_names_NoDup : NoDup (map fst ARMOR_BUCKETS).
Proof.
  apply (bool_decide_unpack (NoDup (map fst ARMOR_BUCKETS))). vm_compute. exact I.
Qed.

Lemma ARMOR_BUCKETS_hash name hash hash' :
  (name, hash) ∈ ARMOR_BUCKETS → (name, hash') ∈ ARMOR_BUCKETS → hash = hash'.
Proof.
  unfold ARMOR_BUCKETS. rewrite !elem_of_cons, !elem_of_nil.
  intros H1 H2.
  destruct H1 as [H1|[H1|[H1|[H1|[H1|[]]]]]]; injection H1 as -> ->;
    destruct H2 as [H2|[H2|[H2|[H2|[H2|[]]]]]];
    first [discriminate H2 | by injection H2 as ->].
Qed.

(** C1. Whenever [parseEquipmentForLoader] returns, the buckets of
    [armorDetails] form a subsequence of HELMET, GAUNTLETS, CHEST, LEGS,
    CLASS_ITEM: in that order, each at most once, at most five. A bucket is
    there exactly when some equipped item carries its hash (a slot without
    item has no entry, not a null one), and the sequence of buckets does
    not change when the items arrive in another order. *)
Theorem parse_slots_in_fixed_order p characterId r :
  parseEquipmentForLoader p characterId = Ok r →
  sublist (map bucket (armorDetails r))
    ["HELMET"; "GAUNTLETS"; "CHEST"; "LEGS"; "CLASS_ITEM"]
  ∧ NoDup (map bucket (armorDetails r))
  ∧ (length (armorDetails r) ≤ 5)%nat
  ∧ (∀ name hash, (name, hash) ∈ ARMOR_BUCKETS →
       name ∈ map bucket (armorDetails r) ↔
       ∃ item, item ∈ itemsOf p characterId ∧ bucketHash item = hash)
  ∧ (∀ p' characterId' r',
       parseEquipmentForLoader p' characterId' = Ok r' →
       itemsOf p' characterId' ≡ₚ itemsOf p characterId →
       map bucket (armorDetails r') = map bucket (armorDetails r)).
Proof.
  intros Hr. pose proof (parse_buckets _ _ _ Hr) as Hb.
  assert (Hsub : sublist (map bucket (armorDetails r)) (map fst ARMOR_BUCKETS)).
  { rewrite Hb. apply (fmap_sublist fst), sublist_filter. }
  split; [exact Hsub|].
  split; [exact (sublist_NoDup _ _ ARMOR_BUCKETS_names_NoDup Hsub)|].
  split.
  { apply sublist_length in Hsub. by rewrite length_map in Hsub. }
  split.
  - intros name hash Hin. rewrite Hb, <- findItem_is_Some.
    change (map fst ?l) with (fst <$> l). rewrite list_elem_of_fmap.
    split.
    + intros ([name' hash'] & -> & Hf). apply list_elem_of_filter in Hf as [Hf Hin'].
      cbn in *. by rewrite (ARMOR_BUCKETS_hash _ _ _ Hin Hin').
    + intros Hf. exists (name, hash). split; [done|].
      by apply list_elem_of_filter.
  - intros p' characterId' r' Hr' Hperm.
    rewrite Hb, (parse_buckets _ _ _ Hr'). f_equal.
    apply list_filter_iff. intros b. rewrite !findItem_is_Some.
    by setoid_rewrite Hperm.
Qed.

(** The entries at one index of the three arrays come from one bucket and
    the item found for it. *)
Lemma omap_entries_aligned {B C} items (g : EquippedItem → B)
    (g' : EquippedItem → C) (bs : list (string * Z)) k d :
  omap (λ b, (λ item, detailOf b item) <$> findItem items (snd b)) bs !! k
    = Some d →
  ∃ b item, b ∈ bs ∧ findItem items (snd b) = Some item ∧ d = detailOf b item
    ∧ omap (λ b, g <$> findItem items (snd b)) bs !! k = Some (g item)
    ∧ omap (λ b, g' <$> findItem items (snd b)) bs !! k = Some (g' item).
Proof.
  revert k. induction bs as [|b bs IH]; intros k; [done|].
  cbn [omap list_omap].
  destruct (findItem items (snd b)) as [item|] eqn:Hf; cbn [fmap option_fmap option_map].
  - destruct k as [|k]; cbn.
    + intros [= <-]. exists b, item. repeat split; [left|done].
    + intros H. destruct (IH _ H) as (b' & item' & ? & ? & ? & ? & ?).
      exists b', item'. repeat split; [by right|done..].
  - intros H. destruct (IH _ H) as (b' & item' & ? & ? & ? & ? & ?).
    exists b', item'. repeat split; [by right|done..].
Qed.

Lemma length_omap_found {B} items (g : string * Z → EquippedItem → B)
    (bs : list (string * Z)) :
  length (omap (λ b, g b <$> findItem items (snd b)) bs)
  = length (filter (λ b, is_Some (findItem items (snd b))) bs).
Proof.
  induction bs as [|b bs IH]; [done|].
  rewrite filter_cons. cbn [omap list_omap].
  destruct (findItem items (snd b)) as [item|].
  - rewrite decide_True by (by eexists). cbn. by rewrite <- IH.
  - rewrite decide_False by (by intros [? ?]). done.
Qed.

(** The entry of every array at an index of the result, by the item it was
    made from. *)
Lemma parse_entry p characterId r i d :
  parseEquipmentForLoader p characterId = Ok r →
  armorDetails r !! i = Some d →
  ∃ b item,
    b ∈ ARMOR_BUCKETS
    ∧ findItem (itemsOf p characterId) (snd b) = Some item
    ∧ d = detailOf b item
    ∧ itemHashes r !! i = Some (itemHash item)
    ∧ shaderHashes r !! i
      = Some (shaderHashOf
                (socketsOf (or_else (itemComponents_sockets_data p) ∅)
                   (itemInstanceId item)))
    ∧ itemDyes r !! i
      = Some (dyesFor (peerViewEquipmentOf p characterId) (itemHash item)).
Proof.
  intros Hr. apply parse_Ok in Hr as (-> & -> & -> & -> & _).
  unfold armorLoop.
  destruct (fold_bucketStep (itemsOf p characterId)
              (or_else (itemComponents_sockets_data p) ∅)
              (peerViewEquipmentOf p characterId) ARMOR_BUCKETS noArrays)
    as (-> & -> & ->).
  cbn [armorItems arr_shaderHashes arr_itemDyes noArrays app].
  intros Hd.
  destruct (omap_entries_aligned _
              (λ item, shaderHashOf
                 (socketsOf (or_else (itemComponents_sockets_data p) ∅)
                    (itemInstanceId item)))
              (λ item, dyesFor (peerViewEquipmentOf p characterId) (itemHash item))
              _ _ _ Hd) as (b & item & Hb & Hf & -> & Hs & Hy).
  exists b, item. repeat split; try done.
  change (map ?f ?l) with (f <$> l). by rewrite list_lookup_fmap, Hd.
Qed.

(** The loop over the sockets from index [i], [n] of them: the plug of
    the first index that has one, or the initial value. *)
Lemma shaderLoop_first (ss : list Socket) i n d :
  (∃ j h, (i ≤ j < i + n)%nat ∧ visiblePlug (ss !! j) = Some h
     ∧ shaderLoop ss i n d = h
     ∧ ∀ k, (i ≤ k < j)%nat → visiblePlug (ss !! k) = None)
  ∨ (shaderLoop ss i n d = d
     ∧ ∀ k, (i ≤ k < i + n)%nat → visiblePlug (ss !! k) = None).
Proof.
  revert i. induction n as [|n IH]; intros i; cbn.
  - right. split; [done|]. intros k Hk. lia.
  - destruct (visiblePlug (ss !! i)) as [h|] eqn:Hi.
    + left. exists i, h. split; [lia|]. do 2 (split; [done|]). intros k Hk. lia.
    + destruct (IH (S i)) as [(j & h & Hj & Hv & Hr & Hbefore)|[Hr Hnone]].
      * left. exists j, h. split; [lia|]. do 2 (split; [done|]).
        intros k Hk. destruct (decide (k = i)) as [->|]; [done|].
        apply Hbefore. lia.
      * right. split; [done|]. intros k Hk.
        destruct (decide (k = i)) as [->|]; [done|]. apply Hnone. lia.
Qed.

Lemma truthy_ne_0 n : truthy n = true ↔ n ≠ 0.
Proof. unfold truthy. by rewrite negb_true_iff, Z.eqb_neq. Qed.

Lemma visiblePlug_Some o h :
  visiblePlug o = Some h ↔ ∃ s, o = Some s ∧ Spec.visiblePlugged s h.
Proof.
  unfold visiblePlug, Spec.visiblePlugged. split.
  - destruct o as [s|]; [|done].
    destruct (plugHash s) as [h'|] eqn:Hp; [|done].
    destruct (truthy h') eqn:Ht, (isVisible s) eqn:Hv; cbn; try done.
    intros [= <-]. exists s. split; [done|]. do 2 (split; [done|]).
    by apply truthy_ne_0.
  - intros (s & -> & Hv & -> & Hh). rewrite Hv.
    apply truthy_ne_0 in Hh. by rewrite Hh.
Qed.

Lemma visiblePlug_None (ss : list Socket) (j : nat) s h :
  visiblePlug (ss !! j) = None → ss !! j = Some s → ¬ Spec.visiblePlugged s h.
Proof.
  intros Hn Hs Hv.
  assert (visiblePlug (ss !! j) = Some h) as Hsome
    by (apply visiblePlug_Some; eauto).
  congruence.
Qed.

Lemma shaderHashOf_first (ss : list Socket) : Spec.firstShaderPlug ss (shaderHashOf (Some ss)).
Proof.
  unfold shaderHashOf, Spec.firstShaderPlug.
  destruct (shaderLoop_first ss 3 3 0) as [(j & h & Hj & Hv & -> & Hbefore)|[-> Hnone]].
  - left. apply visiblePlug_Some in Hv as (s & Hs & Hv).
    exists j, s. split; [lia|]. do 2 (split; [done|]).
    intros k s' h' Hk. apply visiblePlug_None, Hbefore. lia.
  - right. split; [done|].
    intros k s' h' Hk. apply visiblePlug_None, Hnone. lia.
Qed.

(** C2. In the result of [parseEquipmentForLoader], the shader hash at the
    index of an item that has socket state is the plug hash of the first
    socket, among the indices 3, 4, 5 in this order, that is visible with
    a non-zero plug hash, and 0 when no socket of that range is. *)
Theorem shaderHash_first_visible_plug p characterId r i d ss :
  parseEquipmentForLoader p characterId = Ok r →
  armorDetails r !! i = Some d →
  socketsOf (or_else (itemComponents_sockets_data p) ∅) (instanceId d) = Some ss →
  ∃ shaderHash,
    shaderHashes r !! i = Some shaderHash ∧ Spec.firstShaderPlug ss shaderHash.
Proof.
  intros Hr Hd Hss.
  destruct (parse_entry _ _ _ _ _ Hr Hd) as (b & item & _ & _ & -> & _ & Hs & _).
  cbn in Hss. rewrite Hss in Hs.
  eexists. split; [exact Hs|]. apply shaderHashOf_first.
Qed.

(** C10. The four sequences of the result have one length, and at every
    index they describe one armor slot: the entry of [armorDetails] names a
    bucket of [ARMOR_BUCKETS] and the first equipped item with the hash of
    that bucket, and the item hash, the shader hash and the dyes at that
    index are those of this very item. *)
Theorem parse_sequences_aligned p characterId r :
  parseEquipmentForLoader p characterId = Ok r →
  length (itemHashes r) = length (armorDetails r)
  ∧ length (shaderHashes r) = length (armorDetails r)
  ∧ length (itemDyes r) = length (armorDetails r)
  ∧ ∀ i d, armorDetails r !! i = Some d →
      ∃ hash item,
        (bucket d, hash) ∈ ARMOR_BUCKETS
        ∧ findItem (itemsOf p characterId) hash = Some item
        ∧ ad_itemHash d = itemHash item
        ∧ instanceId d = itemInstanceId item
        ∧ itemHashes r !! i = Some (itemHash item)
        ∧ shaderHashes r !! i
          = Some (shaderHashOf
                    (socketsOf (or_else (itemComponents_sockets_data p) ∅)
                       (itemInstanceId item)))
        ∧ itemDyes r !! i
          = Some (dyesFor (peerViewEquipmentOf p characterId) (itemHash item)).
Proof.
  intros Hr. repeat split.
  - apply parse_Ok in Hr as (-> & -> & _). apply length_map.
  - apply parse_Ok in Hr as (-> & _ & -> & _). unfold armorLoop.
    destruct (fold_bucketStep (itemsOf p characterId)
                (or_else (itemComponents_sockets_data p) ∅)
                (peerViewEquipmentOf p characterId) ARMOR_BUCKETS noArrays)
      as (-> & -> & _).
    cbn [armorItems arr_shaderHashes noArrays app].
    etrans; [apply (length_omap_found _ (λ _ item, shaderHashOf _))|].
    symmetry. apply (length_omap_found _ (λ b item, detailOf b item)).
  - apply parse_Ok in Hr as (-> & _ & _ & -> & _). unfold armorLoop.
    destruct (fold_bucketStep (itemsOf p characterId)
                (or_else (itemComponents_sockets_data p) ∅)
                (peerViewEquipmentOf p characterId) ARMOR_BUCKETS noArrays)
      as (-> & _ & ->).
    cbn [armorItems arr_itemDyes noArrays app].
    etrans; [apply (length_omap_found _ (λ _ item, dyesFor _ _))|].
    symmetry. apply (length_omap_found _ (λ b item, detailOf b item)).
  - intros i d Hd.
    destruct (parse_entry _ _ _ _ _ Hr Hd)
      as ([name hash] & item & Hb & Hf & -> & Hi & Hs & Hy).
    exists hash, item. by repeat split.
Qed.

(** C3, as the code has it. In a profile whose two components carry
    data: for an id that is no character of the snapshot the call throws
    the TypeError of reading a property of [undefined], unless the id is a
    name every object inherits, for which it returns, with a character
    without fields; for a character of the snapshot it returns, whatever
    the equipment, and without equipment for the character every sequence
    of the result is empty. A profile whose equipment component is not
    there, or is there without data, makes the call throw a TypeError. *)
Theorem parse_absent_character_TypeError p characterId :
  (∀ chars equipment,
     characters p = withData chars →
     characterEquipment p = withData equipment →
     (chars !! characterId = None → characterId ∉ Object_prototype →
        parseEquipmentForLoader p characterId
        = Throw (TypeError
                   "Cannot read properties of undefined (reading 'classType')"))
     ∧ (chars !! characterId = None → characterId ∈ Object_prototype →
        ∃ r, parseEquipmentForLoader p characterId = Ok r
          ∧ character r = None)
     ∧ (is_Some (chars !! characterId) →
        ∃ r, parseEquipmentForLoader p characterId = Ok r
          ∧ (Spec.noEquipment equipment characterId →
             armorDetails r = [] ∧ itemHashes r = [] ∧ shaderHashes r = []
             ∧ itemDyes r = [])))
  ∧ (characterEquipment p = noComponent ∨ characterEquipment p = noData →
     ∃ msg, parseEquipmentForLoader p characterId = Throw (TypeError msg)).
Proof.
  unfold parseEquipmentForLoader, getProperty. split.
  - intros chars equipment -> ->. split; [|split].
    + intros -> Hno. by rewrite bool_decide_eq_false_2.
    + intros -> Hin. rewrite bool_decide_eq_true_2 by done. by eexists.
    + intros [c ->]. eexists. split; [done|]. cbn.
      intros Hno.
      assert (itemsIn equipment characterId = []) as ->.
      { unfold Spec.noEquipment in Hno. unfold itemsIn.
        destruct (equipment !! characterId) as [e|]; [|done].
        by destruct Hno as [-> | ->]. }
      done.
  - intros [-> | ->]; destruct (characters p); by eexists.
Qed.

End EquipmentResolver.

Section EquipmentResolverRuns.
Import Js BungieAuth.

Lemma sample_parsed :
  parseEquipmentForLoader Sample.profile "2305843009000000001" = Ok Sample.parsed.
Proof. vm_compute. reflexivity. Qed.

Lemma parse_slots_in_fixed_order_witness :
  parseEquipmentForLoader Sample.profile "2305843009000000001" = Ok Sample.parsed
  ∧ sublist (map bucket (armorDetails Sample.parsed))
      ["HELMET"; "GAUNTLETS"; "CHEST"; "LEGS"; "CLASS_ITEM"]
  ∧ NoDup (map bucket (armorDetails Sample.parsed))
  ∧ (length (armorDetails Sample.parsed) ≤ 5)%nat
  ∧ ∃ r', parseEquipmentForLoader Sample.profile_reversed "2305843009000000001"
          = Ok r'
      ∧ itemHashes r' = [333; 111]
      ∧ map bucket (armorDetails r') = map bucket (armorDetails Sample.parsed).
Proof.
  assert (H : parseEquipmentForLoader Sample.profile "2305843009000000001"
              = Ok Sample.parsed) by (vm_compute; reflexivity).
  split; [exact H|].
  destruct (parse_slots_in_fixed_order _ _ _ H) as (H1 & H2 & H3 & _ & H5).
  do 3 (split; [assumption|]).
  eexists. split; [vm_compute; reflexivity|]. split; [reflexivity|].
  apply (H5 Sample.profile_reversed "2305843009000000001").
  - vm_compute. reflexivity.
  - assert (itemsOf Sample.profile_reversed "2305843009000000001"
            = rev (itemsOf Sample.profile "2305843009000000001")) as ->
      by (vm_compute; reflexivity).
    symmetry. apply Permutation_rev.
Defined.

Lemma shaderHash_first_visible_plug_witness :
  ∃ shaderHash,
    shaderHashes Sample.parsed !! 0%nat = Some shaderHash
    ∧ Spec.firstShaderPlug Sample.helmetSockets shaderHash.
Proof.
  apply (shaderHash_first_visible_plug Sample.profile "2305843009000000001"
           Sample.parsed 0
           {| bucket := "HELMET"; ad_itemHash := 222;
              instanceId := "6917529000000000002" |}).
  - vm_compute. reflexivity.
  - reflexivity.
  - vm_compute. reflexivity.
Defined.

Lemma parse_sequences_aligned_witness :
  length (itemHashes Sample.parsed) = length (armorDetails Sample.parsed)
  ∧ length (shaderHashes Sample.parsed) = length (armorDetails Sample.parsed)
  ∧ length (itemDyes Sample.parsed) = length (armorDetails Sample.parsed).
Proof.
  assert (H : parseEquipmentForLoader Sample.profile "2305843009000000001"
              = Ok Sample.parsed) by (vm_compute; reflexivity).
  destruct (parse_sequences_aligned _ _ _ H) as (H1 & H2 & H3 & _).
  exact (conj H1 (conj H2 H3)).
Defined.

(** C3, as stated, fails: the exception thrown for an absent character is
    not a MissingCharacterError; for the absent id [toString] nothing is
    thrown; and the call throws for a character whose profile came with an
    equipment component without data. *)
Lemma parse_absent_character_not_MissingCharacterError :
  (¬ ∃ msg, parseEquipmentForLoader Sample.profile "2305843009000000002"
            = Throw {| Js.name := "MissingCharacterError"; message := msg |})
  ∧ (∀ chars, characters Sample.profile = withData chars →
       chars !! "toString" = None)
  ∧ (∃ r, parseEquipmentForLoader Sample.profile "toString" = Ok r)
  ∧ ∃ e, parseEquipmentForLoader Sample.profile_private "2305843009000000001"
         = Throw e.
Proof.
  split; [intros [msg H]; vm_compute in H; discriminate H|].
  split; [intros chars [= <-]; vm_compute; reflexivity|].
  split; eexists; vm_compute; reflexivity.
Qed.

Lemma parse_absent_character_TypeError_witness :
  parseEquipmentForLoader Sample.profile "2305843009000000002"
  = Throw (TypeError "Cannot read properties of undefined (reading 'classType')")
  ∧ (∃ r, parseEquipmentForLoader Sample.profile "valueOf" = Ok r
       ∧ character r = None)
  ∧ (∃ r, parseEquipmentForLoader Sample.profile_bare "2305843009000000001" = Ok r
       ∧ armorDetails r = [] ∧ itemHashes r = [] ∧ shaderHashes r = []
       ∧ itemDyes r = [])
  ∧ ∃ msg, parseEquipmentForLoader Sample.profile_private "2305843009000000001"
           = Throw (TypeError msg).
Proof.
  destruct (proj1 (parse_absent_character_TypeError Sample.profile
                     "2305843009000000002") _ _ eq_refl eq_refl)
    as (Habsent & _ & _).
  destruct (proj1 (parse_absent_character_TypeError Sample.profile "valueOf")
              _ _ eq_refl eq_refl) as (_ & Hinherited & _).
  destruct (proj1 (parse_absent_character_TypeError Sample.profile_bare
                     "2305843009000000001") _ _ eq_refl eq_refl)
    as (_ & _ & Hbare).
  split; [|split; [|split]].
  - apply Habsent; [vm_compute; reflexivity|].
    apply (bool_decide_eq_false_1 ("2305843009000000002" ∈ Object_prototype)).
    vm_compute. reflexivity.
  - apply Hinherited; [vm_compute; reflexivity|].
    apply (bool_decide_eq_true_1 ("valueOf" ∈ Object_prototype)).
    vm_compute. reflexivity.
  - destruct Hbare as (r & Hr & Hempty); [vm_compute; eauto|].
    exists r. split; [exact Hr|]. apply Hempty. vm_compute. exact I.
  - apply (proj2 (parse_absent_character_TypeError Sample.profile_private
                    "2305843009000000001")).
    right. reflexivity.
Defined.

End EquipmentResolverRuns.

(** ** Shader dyes *)

Section ShaderDyes.
Import Js Main.

Lemma loadShaderDyes_reaches g shaderHash manifest :
  shaderHash ≠ 0 → window_THREE g = true → THREE_TGXLoader g = true →
  manifestOf g = Ok manifest →
  (loadShaderDyes g shaderHash).1 = askManifest manifest shaderHash.
Proof.
  intros Hh Hw Ht. unfold loadShaderDyes, manifestOf, truthy.
  apply Z.eqb_neq in Hh. rewrite Hh, Hw, Ht. cbn.
  destruct (TGXLoader_Manifest g); [by intros [= ->]|].
  by intros ->.
Qed.

(** A call leaves the globals as they were or with the manifest it
    created, and the next call goes on with the same manifest. *)
Lemma loadShaderDyes_globals g shaderHash :
  let g' := (loadShaderDyes g shaderHash).2 in
  window_THREE g' = window_THREE g
  ∧ THREE_TGXLoader g' = THREE_TGXLoader g
  ∧ new_TGXManifest g' = new_TGXManifest g
  ∧ manifestOf g' = manifestOf g.
Proof.
  unfold loadShaderDyes, manifestOf.
  destruct (negb (truthy shaderHash) || (shaderHash =? 0)); [done|].
  destruct (negb (window_THREE g) || negb (THREE_TGXLoader g)); [done|].
  destruct (TGXLoader_Manifest g) eqn:Hm; cbn; [by rewrite Hm|].
  destruct (new_TGXManifest g) eqn:Hn; cbn; by rewrite ?Hm, ?Hn.
Qed.

(** What the promise comes to depends on the globals through these
    only. *)
Lemma loadShaderDyes_promise g g' shaderHash :
  window_THREE g' = window_THREE g →
  THREE_TGXLoader g' = THREE_TGXLoader g →
  manifestOf g' = manifestOf g →
  (loadShaderDyes g' shaderHash).1 = (loadShaderDyes g shaderHash).1.
Proof.
  intros Hw Ht Hm. unfold loadShaderDyes. rewrite Hw, Ht.
  destruct (negb (truthy shaderHash) || (shaderHash =? 0)); [done|].
  destruct (negb (window_THREE g) || negb (THREE_TGXLoader g)); [done|].
  unfold manifestOf in Hm.
  destruct (TGXLoader_Manifest g'), (TGXLoader_Manifest g); cbn.
  - by injection Hm as ->.
  - rewrite <- Hm. done.
  - rewrite Hm. done.
  - rewrite Hm. by destruct (new_TGXManifest g).
Qed.

(** C4, as the code has it. For a non-zero shader hash whose gear asset
    has a non-empty [custom_dyes], the dyes loaded are that sequence
    whole, every entry in its order, whatever [default_dyes] and
    [locked_dyes] hold; [default_dyes], then not empty, is what is loaded
    only when [custom_dyes] is absent or empty. *)
Theorem loadShaderDyes_custom_whole_before_default
    g shaderHash manifest data gearAsset :
  shaderHash ≠ 0 → window_THREE g = true → THREE_TGXLoader g = true →
  manifestOf g = Ok manifest →
  getAsset manifest shaderHash = assetOnLoad (Some data) →
  Main.gearAsset data = Some gearAsset →
  (∀ d ds, custom_dyes gearAsset = Some (d :: ds) →
     (loadShaderDyes g shaderHash).1 = Resolved (Some (d :: ds)))
  ∧ (∀ dyes, (loadShaderDyes g shaderHash).1 = Resolved (Some dyes) →
     Some dyes ≠ custom_dyes gearAsset →
     Some dyes = default_dyes gearAsset ∧ dyes ≠ []
     ∧ (custom_dyes gearAsset = None ∨ custom_dyes gearAsset = Some [])).
Proof.
  intros Hh Hw Ht Hm Hget Hga.
  rewrite (loadShaderDyes_reaches _ _ _ Hh Hw Ht Hm).
  unfold askManifest. rewrite Hget.
  unfold shaderDyesOf. rewrite Hga. split.
  - intros d ds Hc. by rewrite Hc.
  - intros dyes. destruct (custom_dyes gearAsset) as [[|c cs]|] eqn:Hc; cbn.
    + destruct (default_dyes gearAsset) as [[|d ds]|]; cbn; [done| |done].
      intros [= <-] _. split; [done|]. split; [done | by right].
    + intros [= <-] Hne. done.
    + destruct (default_dyes gearAsset) as [[|d ds]|]; cbn; [done| |done].
      intros [= <-] _. split; [done|]. split; [done | by left].
Qed.

(** C4, as stated, fails: what is loaded for a shader with two custom dyes
    is not its first entry but both, the second included. *)
Lemma loadShaderDyes_yields_every_custom_dye :
  (loadShaderDyes Sample.manifest_shader 999).1
  = Resolved (Some [Sample.dyeB; Sample.dyeA])
  ∧ (loadShaderDyes Sample.manifest_shader 999).1
    ≠ Resolved (Some [Sample.dyeB]).
Proof. split; [reflexivity | discriminate]. Qed.

Lemma loadShaderDyes_custom_whole_before_default_witness :
  (loadShaderDyes Sample.manifest_fresh 999).1
  = Resolved (Some [Sample.dyeB; Sample.dyeA]).
Proof.
  apply (proj1 (loadShaderDyes_custom_whole_before_default
                  Sample.manifest_fresh 999 Sample.shaderManifest
                  {| Main.gearAsset := Some Sample.shaderAsset |}
                  Sample.shaderAsset ltac:(lia) eq_refl eq_refl eq_refl
                  eq_refl eq_refl)).
  reflexivity.
Defined.

(** C9, as stated, fails: when the manifest reports a transport error the
    promise does not reject, and resolves with the value it also resolves
    with when the manifest finds nothing. *)
Lemma loadShaderDyes_outage_resolves_null :
  (¬ ∃ e, (loadShaderDyes Sample.manifest_outage 999).1 = Rejected e)
  ∧ (loadShaderDyes Sample.manifest_outage 999).1
    = (loadShaderDyes Sample.manifest_empty 999).1.
Proof. split; [intros [e H]; discriminate H | reflexivity]. Qed.

(** C9, as the code has it. An error reported by the manifest, through
    its error callback or as an exception of [getAsset], resolves the
    promise of [loadShaderDyes] with null, as does a lookup that yields no
    data. The promise rejects in one case only: the hash is not zero, the
    loader is there, no manifest was created yet, and the constructor of
    the manifest throws; the reason is then what the constructor threw. *)
Theorem loadShaderDyes_failure_is_null g shaderHash :
  (∀ manifest, manifestOf g = Ok manifest →
     (∀ e, getAsset manifest shaderHash = assetOnError e
           ∨ getAsset manifest shaderHash = assetThrows e →
        (loadShaderDyes g shaderHash).1 = Resolved None)
     ∧ (getAsset manifest shaderHash = assetOnLoad None →
        (loadShaderDyes g shaderHash).1 = Resolved None))
  ∧ (∀ e, (loadShaderDyes g shaderHash).1 = Rejected e ↔
       shaderHash ≠ 0 ∧ window_THREE g = true ∧ THREE_TGXLoader g = true
       ∧ TGXLoader_Manifest g = None ∧ new_TGXManifest g = Throw e).
Proof.
  split.
  - intros manifest Hm.
    assert (Hcases : (loadShaderDyes g shaderHash).1 = Resolved None
                     ∨ (loadShaderDyes g shaderHash).1
                       = askManifest manifest shaderHash).
    { unfold loadShaderDyes, manifestOf in *.
      destruct (negb (truthy shaderHash) || (shaderHash =? 0)); [by left|].
      destruct (negb (window_THREE g) || negb (THREE_TGXLoader g)); [by left|].
      right. destruct (TGXLoader_Manifest g); [by injection Hm as ->|].
      by rewrite Hm. }
    unfold askManifest in Hcases. split.
    + intros e [He | He]; rewrite He in Hcases; by destruct Hcases.
    + intros He. rewrite He in Hcases. by destruct Hcases.
  - intros e. unfold loadShaderDyes, truthy.
    destruct (shaderHash =? 0) eqn:Hh; cbn.
    { apply Z.eqb_eq in Hh. split; [done | by intros [? _]]. }
    apply Z.eqb_neq in Hh.
    destruct (window_THREE g); cbn; [|split; [done | by intros (_ & ? & _)]].
    destruct (THREE_TGXLoader g); cbn;
      [|split; [done | by intros (_ & _ & ? & _)]].
    destruct (TGXLoader_Manifest g) as [manifest|]; cbn.
    { split; [|by intros (_ & _ & _ & ? & _)].
      unfold askManifest. by destruct (getAsset manifest shaderHash). }
    destruct (new_TGXManifest g) as [manifest|e']; cbn.
    { split; [|by intros (_ & _ & _ & _ & ?)].
      unfold askManifest. by destruct (getAsset manifest shaderHash). }
    split.
    + by intros [= ->].
    + by intros (_ & _ & _ & _ & [= ->]).
Qed.

Lemma loadShaderDyes_failure_is_null_witness :
  (loadShaderDyes Sample.manifest_outage 999).1 = Resolved None
  ∧ (loadShaderDyes Sample.manifest_empty 999).1 = Resolved None
  ∧ (loadShaderDyes Sample.manifest_missing 999).1
    = Rejected (TypeError "THREE.TGXManifest is not a constructor").
Proof.
  destruct (proj1 (loadShaderDyes_failure_is_null Sample.manifest_outage 999)
              _ eq_refl) as (Herr & _).
  destruct (proj1 (loadShaderDyes_failure_is_null Sample.manifest_empty 999)
              _ eq_refl) as (_ & Hnone).
  split; [|split].
  - apply (Herr {| Js.name := "Error"; message := "Failed to fetch" |}).
    left. reflexivity.
  - apply Hnone. reflexivity.
  - apply (proj2 (loadShaderDyes_failure_is_null Sample.manifest_missing 999)).
    split; [lia|]. by repeat split.
Defined.

End ShaderDyes.

(** ** Model assembly *)

Section ModelAssembler.
Import Js Main.

Lemma Object3D_add_length threeBones p c :
  length (Object3D_add threeBones p c) = length threeBones.
Proof.
  unfold Object3D_add. destruct (p =? c)%nat; [done|]. apply length_alter.
Qed.

Lemma Object3D_add_other threeBones p c j :
  j ≠ c → Object3D_add threeBones p c !! j = threeBones !! j.
Proof.
  intros Hj. unfold Object3D_add. destruct (p =? c)%nat; [done|].
  by apply list_lookup_alter_ne.
Qed.

(** One turn of the hierarchy loop, seen from the bone it is about. *)
Lemma linkBones_head boneData (threeBones : list Bone) (i : nat) :
  match parentInRange boneData (length threeBones) with
  | Some p => Object3D_add threeBones p i
  | None => threeBones
  end !! i
  = (λ bone,
       match parentInRange boneData (length threeBones) with
       | Some p => if (p =? i)%nat then bone else setParent (BoneParent p) bone
       | None => bone
       end) <$> threeBones !! i.
Proof.
  destruct (parentInRange boneData (length threeBones)) as [p|].
  - unfold Object3D_add. destruct (p =? i)%nat.
    + by destruct (threeBones !! i).
    + apply list_lookup_alter_eq.
  - by destruct (threeBones !! i).
Qed.

(** The hierarchy loop touches the bone of index [j] only at the turn of
    the entry [j], and there as [linkBones_head] says. *)
Lemma linkBones_lookup rest (i : nat) (threeBones : list Bone) (j : nat) :
  linkBones rest i threeBones !! j
  = match (if decide (i ≤ j)%nat then rest !! (j - i)%nat else None) with
    | Some boneData =>
        (λ bone,
           match parentInRange boneData (length threeBones) with
           | Some p => if (p =? j)%nat then bone else setParent (BoneParent p) bone
           | None => bone
           end) <$> threeBones !! j
    | None => threeBones !! j
    end.
Proof.
  revert i threeBones. induction rest as [|boneData rest IH]; intros i threeBones.
  - cbn. by destruct (decide (i ≤ j)%nat).
  - cbn [linkBones].
    set (threeBones' :=
           match parentInRange boneData (length threeBones) with
           | Some p => Object3D_add threeBones p i
           | None => threeBones
           end).
    assert (Hlen : length threeBones' = length threeBones).
    { subst threeBones'. destruct (parentInRange _ _); [|done].
      apply Object3D_add_length. }
    rewrite IH, Hlen.
    destruct (decide (S i ≤ j)%nat) as [Hle|Hnle].
    + rewrite decide_True by lia.
      replace (j - i)%nat with (S (j - S i)) by lia. cbn [lookup list_lookup].
      assert (threeBones' !! j = threeBones !! j) as ->; [|done].
      subst threeBones'. destruct (parentInRange _ _); [|done].
      apply Object3D_add_other. lia.
    + destruct (decide (i ≤ j)%nat) as [Hle|Hnle'].
      * assert (j = i) as -> by lia. rewrite Nat.sub_diag. cbn [lookup list_lookup].
        apply linkBones_head.
      * subst threeBones'. destruct (parentInRange _ _); [|done].
        apply Object3D_add_other. lia.
Qed.

Lemma linkBones_length rest i threeBones :
  length (linkBones rest i threeBones) = length threeBones.
Proof.
  revert i threeBones. induction rest as [|boneData rest IH]; intros i threeBones;
    [done|].
  cbn. rewrite IH. destruct (parentInRange _ _); [|done].
  apply Object3D_add_length.
Qed.

(** After the hierarchy loop, every bone hangs where [Spec.attachedTo]
    says. *)
Lemma linked_parent (boneDatas : list BoneData) (i : nat) bone :
  linkBones boneDatas 0 (imap newBone boneDatas) !! i = Some bone →
  bone_parent bone = Spec.attachedTo boneDatas i.
Proof.
  rewrite linkBones_lookup, decide_True by lia.
  rewrite Nat.sub_0_r, list_lookup_imap, length_imap.
  unfold Spec.attachedTo.
  destruct (boneDatas !! i) as [boneData|]; [|done]. cbn.
  destruct (parentInRange boneData (length boneDatas)) as [p|]; [|by intros [= <-]].
  destruct (p =? i)%nat; by intros [= <-].
Qed.

(** The root loop keeps the last entry that passes its test. [i] is the
    index of the head of [rest] and [root0] the root so far. *)
Lemma findRoot_last rest (i root0 : nat) :
  (∃ j boneData,
     rest !! j = Some boneData ∧ isRootData boneData = true
     ∧ findRoot rest i root0 = (i + j)%nat
     ∧ ∀ k boneData', (j < k)%nat → rest !! k = Some boneData' →
         isRootData boneData' = false)
  ∨ (findRoot rest i root0 = root0
     ∧ ∀ k boneData', rest !! k = Some boneData' → isRootData boneData' = false).
Proof.
  revert i root0. induction rest as [|boneData rest IH]; intros i root0.
  - right. by split.
  - cbn [findRoot].
    destruct (IH (S i) (if isRootData boneData then i else root0))
      as [(j & bd & Hj & Hroot & Hres & Hlater)|[Hres Hnone]].
    + left. exists (S j), bd. split; [done|]. split; [done|].
      split; [rewrite Hres; lia|].
      intros [|k] bd' Hk; [lia|]. cbn. apply Hlater. lia.
    + destruct (isRootData boneData) eqn:Hb.
      * left. exists 0%nat, boneData. split; [done|]. split; [done|].
        split; [rewrite Hres; lia|].
        intros [|k] bd' Hk; [lia|]. cbn. apply Hnone.
      * right. split; [done|].
        intros [|k] bd'; cbn; [by intros [= <-]|apply Hnone].
Qed.

(** C5, as stated, fails: the bones [{parent:-1},{parent:5}] do not make
    the promise of [loadModel] reject; it resolves with a skinned mesh of
    two bones, the second one left without parent. *)
Lemma loadModel_parent_5_resolves :
  (¬ ∃ e, loadModel (loaderOnLoad {| bones := Some Sample.bones_parent_5 |}) 1
          = Rejected e)
  ∧ ∃ mesh, loadModel (loaderOnLoad {| bones := Some Sample.bones_parent_5 |}) 1
            = Resolved mesh
      ∧ bone_parent <$> skeletonOf mesh = [MeshParent; NoParent].
Proof.
  split; [intros [e H]; discriminate H|].
  eexists. split; [reflexivity|]. vm_compute. reflexivity.
Qed.

(** C5, as the code has it. Whatever the bones, the promise of [loadModel]
    resolves once the loader has delivered the geometry and the callback
    has run to its end. With bones, the
    mesh has one bone per entry; apart from the bone taken as root, a
    bone hangs under the bone its [parent] names whenever that is an index
    of the sequence other than its own (an earlier or a later one alike),
    and hangs nowhere when its [parent] is out of range or its own
    index. *)
Theorem loadModel_accepts_any_parent itemHash geometry :
  ∃ mesh, loadModel (loaderOnLoad geometry) itemHash = Resolved mesh
    ∧ ∀ b bs, bones geometry = Some (b :: bs) →
        length (skeletonOf mesh) = length (b :: bs)
        ∧ ∀ i bone, skeletonOf mesh !! i = Some bone →
            rootBoneOf mesh ≠ Some i →
            bone_parent bone = Spec.attachedTo (b :: bs) i.
Proof.
  eexists. split; [reflexivity|].
  intros b bs Hb. unfold createMesh. rewrite Hb. cbn [skeletonOf rootBoneOf].
  split.
  - by rewrite length_alter, linkBones_length, length_imap.
  - intros i bone Hi Hroot.
    rewrite list_lookup_alter_ne in Hi by congruence.
    by apply linked_parent.
Qed.

Lemma loadModel_accepts_any_parent_witness :
  ∃ mesh, loadModel (loaderOnLoad {| bones := Some Sample.bones_forward |}) 1
          = Resolved mesh
    ∧ length (skeletonOf mesh) = 2%nat
    ∧ ∀ bone, skeletonOf mesh !! 0%nat = Some bone →
        bone_parent bone = BoneParent 1.
Proof.
  destruct (loadModel_accepts_any_parent 1
              {| bones := Some Sample.bones_forward |}) as (mesh & Hm & H).
  exists mesh. split; [exact Hm|].
  destruct (H _ _ eq_refl) as [Hlen Hpar].
  split; [exact Hlen|].
  intros bone Hbone. injection Hm as <-.
  apply (Hpar 0%nat bone Hbone). vm_compute. discriminate.
Defined.

(** C6, as stated, fails: of the bones [{parent:-1},{parent:-1}] the
    second one becomes the root, not the first. *)
Lemma root_of_two_roots_is_second :
  parent <$> Sample.bones_two_roots !! 0%nat = Some (Some (-1))
  ∧ parent <$> Sample.bones_two_roots !! 1%nat = Some (Some (-1))
  ∧ rootBoneOf (createMesh 1 {| bones := Some Sample.bones_two_roots |})
    = Some 1%nat.
Proof. repeat split. Qed.

(** C6, as the code has it. The root of the skeleton is the last entry of
    the bone sequence whose [parent] is negative or absent; without such
    an entry it is the first bone. *)
Theorem root_is_last_parentless itemHash b bs :
  ∃ root,
    rootBoneOf (createMesh itemHash {| bones := Some (b :: bs) |}) = Some root
    ∧ ((∃ boneData,
          (b :: bs) !! root = Some boneData ∧ isRootData boneData = true
          ∧ ∀ k boneData', (root < k)%nat → (b :: bs) !! k = Some boneData' →
              isRootData boneData' = false)
       ∨ (root = 0%nat
          ∧ ∀ k boneData', (b :: bs) !! k = Some boneData' →
              isRootData boneData' = false)).
Proof.
  eexists. split; [reflexivity|].
  destruct (findRoot_last (b :: bs) 0 0)
    as [(j & bd & Hj & Hroot & -> & Hlater)|[-> Hnone]].
  - left. exists bd. by rewrite Nat.add_0_l.
  - right. by split.
Qed.

Lemma root_is_last_parentless_witness :
  ∃ root,
    rootBoneOf (createMesh 1 {| bones := Some Sample.bones_forward |}) = Some root
    ∧ root = 1%nat.
Proof.
  destruct (root_is_last_parentless 1 (Sample.boneWithParent 1)
              [Sample.boneWithParent (-1)]) as (root & Hroot & _).
  exists root. split; [exact Hroot|].
  vm_compute in Hroot. by injection Hroot.
Defined.

End ModelAssembler.

(** ** Framing *)

Section FramingFacts.
Import Js Main PrimFloat.

Variable Math_tan : float → float.

Lemma boxOrDefault_degenerate size center :
  let maxDim := Math_max [x size; y size; z size] in
  isFinite maxDim = false ∨ (maxDim <=? 0)%float = true →
  boxOrDefault size center
  = (2%float, {| x := 0%float; y := 1%float; z := 0%float |}).
Proof.
  intros maxDim H. unfold boxOrDefault. fold maxDim.
  destruct H as [-> | ->]; [done|]. by rewrite orb_true_r.
Qed.

Lemma scaleFactorOf_2 : scaleFactorOf 2 = 1%float.
Proof. vm_compute. reflexivity. Qed.

(** The camera distance of the default box, for each tangent near that of
    22.5 degrees. *)
Lemma cameraDistance_default_finite :
  Spec.nearTan_22_5 (Math_tan (camera_fov * (Math_PI / 180) / 2)%float) →
  isFinite (cameraDistanceOf Math_tan 2 1) = true
  ∧ isFinite (Math_max [cameraDistanceOf Math_tan 2 1; 2%float]) = true.
Proof.
  unfold cameraDistanceOf, Spec.nearTan_22_5.
  generalize (Math_tan (camera_fov * (Math_PI / 180) / 2)%float). intros t Ht.
  cbn [In] in Ht.
  destruct Ht as [<-|[<-|[<-|[<-|[<-|[]]]]]]; vm_compute; by split.
Qed.

(** C7. When the largest dimension of the bounding box is not finite or is
    not positive, the function goes on with the dimension 2 and the centre
    (0, 1, 0). The scale factor is then 1 and the scale (1, 1, 1), the
    position is (-0, -1, -0), and the camera stands at
    [Math.max(cameraDistance, 2)] on the z axis, where [cameraDistance]
    does not depend on the box; all of them are finite, the camera
    distance for a tangent of half the 45 degrees of field of view that
    is accurate to two units in the last place. *)
Theorem degenerate_box_default_framing size center :
  let maxDim := Math_max [x size; y size; z size] in
  isFinite maxDim = false ∨ (maxDim <=? 0)%float = true →
  boxOrDefault size center
  = (2%float, {| x := 0%float; y := 1%float; z := 0%float |})
  ∧ scaleFactorOf 2 = 1%float
  ∧ group_scale (frameGroup Math_tan size center)
    = {| x := 1%float; y := 1%float; z := 1%float |}
  ∧ group_position (frameGroup Math_tan size center)
    = {| x := (-0)%float; y := (-1)%float; z := (-0)%float |}
  ∧ camera_position_set (frameGroup Math_tan size center)
    = {| x := 0%float; y := 0%float;
         z := Math_max [cameraDistanceOf Math_tan 2 1; 2%float] |}
  ∧ Spec.finiteVector (group_scale (frameGroup Math_tan size center))
  ∧ Spec.finiteVector (group_position (frameGroup Math_tan size center))
  ∧ (Spec.nearTan_22_5 (Math_tan (camera_fov * (Math_PI / 180) / 2)%float) →
     isFinite (cameraDistanceOf Math_tan 2 1) = true
     ∧ Spec.finiteVector (camera_position_set (frameGroup Math_tan size center))).
Proof.
  intros maxDim H.
  pose proof (boxOrDefault_degenerate size center H) as Hbox.
  unfold frameGroup. rewrite Hbox. unfold place. rewrite scaleFactorOf_2.
  cbn [group_scale group_position camera_position_set].
  split; [done|]. split; [apply scaleFactorOf_2|].
  split; [done|]. split; [by vm_compute|]. split; [done|].
  split; [by vm_compute|]. split; [by vm_compute|].
  intros Htan. destruct (cameraDistance_default_finite Htan) as [Hd Hz].
  split; [done|]. unfold Spec.finiteVector. cbn [x y z].
  split; [by vm_compute|]. split; [by vm_compute|]. exact Hz.
Qed.

End FramingFacts.

Section FramingRuns.
Import Main PrimFloat.

Lemma degenerate_box_default_framing_witness :
  scaleFactorOf 2 = 1%float
  ∧ group_position (frameGroup Sample.Math_tan Sample.flat Sample.nowhere)
    = {| x := (-0)%float; y := (-1)%float; z := (-0)%float |}
  ∧ Spec.finiteVector
      (camera_position_set (frameGroup Sample.Math_tan Sample.flat Sample.nowhere)).
Proof.
  destruct (degenerate_box_default_framing Sample.Math_tan Sample.flat
              Sample.nowhere) as (_ & H1 & _ & H2 & _ & _ & _ & H3).
  - right. vm_compute. reflexivity.
  - split; [exact H1|]. split; [exact H2|].
    apply H3. unfold Spec.nearTan_22_5. right. right. left. reflexivity.
Defined.

End FramingRuns.

(** ** The loading loop *)

Section InitFacts.
Import Js Main.

Variable load : nat → Z → Options → LoaderResult.
Variable Math_tan : PrimFloat.float → PrimFloat.float.
Variable boundingBox : list Mesh → Vector3 * Vector3.

Lemma sameManifest_refl g : Spec.sameManifest g g.
Proof. by repeat split. Qed.

Lemma sameManifest_trans g g' g'' :
  Spec.sameManifest g g' → Spec.sameManifest g' g'' → Spec.sameManifest g g''.
Proof.
  intros (H1 & H2 & H3 & H4) (H1' & H2' & H3' & H4').
  repeat split; congruence.
Qed.

Lemma shaderDyesFor_globals g shaderHash :
  Spec.sameManifest g (shaderDyesFor g shaderHash).2.
Proof.
  unfold shaderDyesFor.
  destruct shaderHash as [h|]; [|apply sameManifest_refl].
  destruct (truthy h && negb (h =? 0)); [|apply sameManifest_refl].
  apply loadShaderDyes_globals.
Qed.

Lemma shaderDyesFor_promise g g' shaderHash :
  Spec.sameManifest g g' →
  (shaderDyesFor g' shaderHash).1 = (shaderDyesFor g shaderHash).1.
Proof.
  intros (Hw & Ht & _ & Hm). unfold shaderDyesFor.
  destruct shaderHash as [h|]; [|done].
  destruct (truthy h && negb (h =? 0)); [|done].
  by apply loadShaderDyes_promise.
Qed.

(** The promise of a turn and the globals after it, apart. *)
Lemma tryItem_promise_eq g equipment i itemHash :
  (tryItem load g equipment i itemHash).1
  = match (shaderDyesFor g (BungieAuth.shaderHashes equipment !! i)).1 with
    | Resolved shaderDyes =>
        loadModel (load i itemHash (optionsAt equipment i shaderDyes)) itemHash
    | Rejected err => Rejected err
    | Pending => Pending
    end.
Proof.
  unfold tryItem.
  by destruct (shaderDyesFor g (BungieAuth.shaderHashes equipment !! i))
    as [[shaderDyes|err|] g'].
Qed.

Lemma tryItem_globals_eq g equipment i itemHash :
  (tryItem load g equipment i itemHash).2
  = (shaderDyesFor g (BungieAuth.shaderHashes equipment !! i)).2.
Proof.
  unfold tryItem.
  by destruct (shaderDyesFor g (BungieAuth.shaderHashes equipment !! i))
    as [[shaderDyes|err|] g'].
Qed.

Lemma tryItem_promise g g' equipment i itemHash :
  Spec.sameManifest g g' →
  (tryItem load g' equipment i itemHash).1
  = (tryItem load g equipment i itemHash).1.
Proof.
  intros Hg. rewrite !tryItem_promise_eq.
  by rewrite (shaderDyesFor_promise g g').
Qed.

Lemma loadItem_eq g equipment st i itemHash :
  loadItem load g equipment st i itemHash
  = (match (tryItem load g equipment i itemHash).1 with
     | Resolved mesh =>
         Some {| children := children st ++ [mesh];
                 loadedCount := S (loadedCount st) |}
     | Rejected _ => Some st
     | Pending => None
     end,
     (tryItem load g equipment i itemHash).2).
Proof.
  unfold loadItem.
  by destruct (tryItem load g equipment i itemHash) as [[mesh|err|] g'].
Qed.

(** The meshes of the items whose own [try] block ran to its end, in the
    order of the items. *)
Local Abbreviation loadedOf g equipment i0 itemHashes :=
  (omap (λ ih : nat * Z, resolved (tryItem load g equipment ih.1 ih.2).1)
     (imap (λ k h, ((i0 + k)%nat, h)) itemHashes)).

Lemma loadedOf_cons g equipment i itemHash rest :
  loadedOf g equipment i (itemHash :: rest)
  = match resolved (tryItem load g equipment i itemHash).1 with
    | Some mesh => mesh :: loadedOf g equipment (S i) rest
    | None => loadedOf g equipment (S i) rest
    end.
Proof.
  rewrite imap_cons. cbn [omap list_omap]. rewrite Nat.add_0_r. cbn [fst snd].
  assert (imap ((λ k h, ((i + k)%nat, h)) ∘ S) rest
          = imap (λ k h, ((S i + k)%nat, h)) rest) as ->.
  { apply imap_ext. intros k h _. cbn. f_equal. lia. }
  done.
Qed.

(** When every turn ends, the loop ends, with the meshes of the turns
    that resolved. *)
Lemma loadLoop_settled g0 g equipment rest i st :
  Spec.sameManifest g0 g →
  (∀ k h, rest !! k = Some h →
     (tryItem load g0 equipment (i + k) h).1 ≠ Pending) →
  ∃ st', (loadLoop load g equipment rest i st).1 = Some st'
    ∧ children st' = children st ++ loadedOf g0 equipment i rest.
Proof.
  revert g i st. induction rest as [|itemHash rest IH]; intros g i st Hg Hall.
  - eexists. split; [done|]. cbn. by rewrite app_nil_r.
  - cbn [loadLoop]. rewrite loadItem_eq, loadedOf_cons.
    pose proof (Hall 0%nat itemHash eq_refl) as H0. rewrite Nat.add_0_r in H0.
    rewrite (tryItem_promise g0 g) by done.
    assert (Hg' : Spec.sameManifest g0 (tryItem load g equipment i itemHash).2).
    { apply (sameManifest_trans _ g); [done|].
      rewrite tryItem_globals_eq. apply shaderDyesFor_globals. }
    assert (Hall' : ∀ k h, rest !! k = Some h →
              (tryItem load g0 equipment (S i + k) h).1 ≠ Pending).
    { intros k h Hk. replace (S i + k)%nat with (i + S k)%nat by lia.
      by apply Hall. }
    destruct ((tryItem load g0 equipment i itemHash).1) as [mesh|err|];
      [| |done]; cbn [resolved].
    + destruct (IH _ (S i) {| children := children st ++ [mesh];
                              loadedCount := S (loadedCount st) |} Hg' Hall')
        as (st' & Hst' & Hch).
      exists st'. split; [done|]. rewrite Hch. cbn. by rewrite <- app_assoc.
    + destruct (IH _ (S i) st Hg' Hall') as (st' & Hst' & Hch).
      by exists st'.
Qed.

(** A turn that does not end, reached or not, keeps the loop from
    ending. *)
Lemma loadLoop_pending g0 g equipment rest i st k h :
  Spec.sameManifest g0 g →
  rest !! k = Some h →
  (tryItem load g0 equipment (i + k) h).1 = Pending →
  (loadLoop load g equipment rest i st).1 = None.
Proof.
  revert g i st k. induction rest as [|itemHash rest IH];
    intros g i st k Hg Hk Hp; [done|].
  cbn [loadLoop]. rewrite loadItem_eq.
  rewrite (tryItem_promise g0 g) by done.
  assert (Hg' : Spec.sameManifest g0 (tryItem load g equipment i itemHash).2).
  { apply (sameManifest_trans _ g); [done|].
    rewrite tryItem_globals_eq. apply shaderDyesFor_globals. }
  destruct k as [|k].
  - injection Hk as ->. rewrite Nat.add_0_r in Hp. by rewrite Hp.
  - replace (i + S k)%nat with (S i + k)%nat in Hp by lia.
    destruct ((tryItem load g0 equipment i itemHash).1) as [mesh|err|];
      [| |done]; by apply (IH _ (S i) _ k).
Qed.

(** Once the equipment is parsed and as long as no turn awaits a promise
    that is never settled, the handler resolves. The group it builds
    holds the mesh of every item whose own shader and model loads
    resolved, in order, whether or not the loads of other items were
    rejected. When that group is not empty it is put in the scene and the
    status line is cleared; when no item loaded, no group is put in the
    scene and the status line reports it: that no piece could be loaded,
    or, without any armor item, that no armor was found. *)
Lemma rejected_loads_are_skipped g profileData charId equipment :
  BungieAuth.parseEquipmentForLoader profileData charId = Ok equipment →
  let itemHashes := BungieAuth.itemHashes equipment in
  let loaded := loadedOf g equipment 0%nat itemHashes in
  (∀ k h, itemHashes !! k = Some h →
     (tryItem load g equipment k h).1 ≠ Pending) →
  ∃ page,
    (onSelect load Math_tan boundingBox g profileData charId).1 = Resolved page
    ∧ (loaded ≠ [] → fst <$> scene page = Some loaded ∧ status page = "")
    ∧ (loaded = [] →
       scene page = None
       ∧ status page =
           match itemHashes with
           | [] => "No se encontró armadura equipada"
           | _ :: _ => "Error: No se pudo cargar ninguna pieza de armadura."
           end).
Proof.
  intros Hparse itemHashes loaded Hall. unfold onSelect. rewrite Hparse.
  fold itemHashes. destruct itemHashes as [|h hs] eqn:Hitems.
  { cbn. eexists. split; [done|]. split; [by intros []|done]. }
  cbn [length Nat.ltb Nat.leb].
  destruct (loadLoop_settled g g equipment (h :: hs) 0
              {| children := []; loadedCount := 0 |} (sameManifest_refl g) Hall)
    as (st' & Hst' & Hch).
  destruct (loadLoop load g equipment (h :: hs) 0 _) as [st g'].
  cbn in Hst'. subst st. cbn [children app] in Hch. rewrite Hch. fold loaded.
  destruct loaded as [|mesh meshes]; cbn [length Nat.ltb Nat.leb].
  - eexists. split; [done|]. split; [by intros []|done].
  - unfold addGroupToScene. destruct (boundingBox (mesh :: meshes)) as [size center].
    eexists. split; [done|]. cbn. split; [done|]. by intros [=].
Qed.

(** X18. For a character the selector offers, that is an own key of the
    characters of the profile, in a profile whose equipment component
    carries data, the equipment is parsed, with that character. When in
    addition no turn of the loop awaits a promise that is never settled
    (the manifest and the loader answer, and no callback of the loader
    throws), the handler resolves: the items whose shader and model loads
    resolved are shown, in order, or the status line reports that none was
    loaded. *)
Theorem offered_character_is_loaded g (profileData : BungieAuth.ProfileData)
    chars equipmentData charId :
  BungieAuth.characters profileData = BungieAuth.withData chars →
  BungieAuth.characterEquipment profileData
  = BungieAuth.withData equipmentData →
  charId ∈ dom chars →
  ∃ equipment,
    BungieAuth.parseEquipmentForLoader profileData charId = Ok equipment
    ∧ BungieAuth.character equipment = chars !! charId
    ∧ let itemHashes := BungieAuth.itemHashes equipment in
      let loaded := loadedOf g equipment 0%nat itemHashes in
      (∀ k h, itemHashes !! k = Some h →
         (tryItem load g equipment k h).1 ≠ Pending) →
      ∃ page,
        (onSelect load Math_tan boundingBox g profileData charId).1
        = Resolved page
        ∧ (loaded ≠ [] → fst <$> scene page = Some loaded ∧ status page = "")
        ∧ (loaded = [] →
           scene page = None
           ∧ status page =
               match itemHashes with
               | [] => "No se encontró armadura equipada"
               | _ :: _ =>
                   "Error: No se pudo cargar ninguna pieza de armadura."
               end).
Proof.
  intros Hchars Hequipment Hin. apply elem_of_dom in Hin as [c Hc].
  assert (∃ equipment,
            BungieAuth.parseEquipmentForLoader profileData charId = Ok equipment
            ∧ BungieAuth.character equipment = Some c) as (equipment & Hparse & Hch).
  { unfold BungieAuth.parseEquipmentForLoader, BungieAuth.getProperty.
    rewrite Hchars, Hequipment, Hc. eexists. split; [done|]. by destruct c. }
  exists equipment. split; [done|]. split; [congruence|].
  by apply rejected_loads_are_skipped.
Qed.

(** X20. An item whose shader hash is 0, or absent, is loaded without
    shader dyes whatever the manifest holds: no manifest is asked or
    created, the loader is given [shaderDyes: null], and the outcome of
    the item is that of its model load alone. *)
Theorem unshaded_item_skips_manifest g (equipment : BungieAuth.Equipment)
    (i : nat) itemHash :
  BungieAuth.shaderHashes equipment !! i = Some 0
  ∨ BungieAuth.shaderHashes equipment !! i = None →
  tryItem load g equipment i itemHash
  = (loadModel
       (load i itemHash
          {| shaderHash := BungieAuth.shaderHashes equipment !! i;
             opt_itemDyes := BungieAuth.itemDyes equipment !! i;
             shaderDyes := None |}) itemHash,
     g).
Proof.
  intros Hzero. unfold tryItem, shaderDyesFor, optionsAt.
  by destruct Hzero as [-> | ->].
Qed.

(** C8: where the code departs from the claim. When the callback of the
    loader throws for an item whose shader dyes were loaded, the promise
    the turn awaits is never settled: the item is not skipped, the items
    after it are not loaded, and the handler never gets to the scene or to
    the status line. *)
Theorem thrown_callback_stalls_the_load
    g profileData charId equipment k itemHash shaderDyes progress err :
  BungieAuth.parseEquipmentForLoader profileData charId = Ok equipment →
  BungieAuth.itemHashes equipment !! k = Some itemHash →
  (shaderDyesFor g (BungieAuth.shaderHashes equipment !! k)).1
  = Resolved shaderDyes →
  load k itemHash (optionsAt equipment k shaderDyes)
  = loaderOnLoadThrows progress err →
  (onSelect load Math_tan boundingBox g profileData charId).1 = Pending.
Proof.
  intros Hparse Hk Hdyes Hload. unfold onSelect. rewrite Hparse.
  assert (Hp : (tryItem load g equipment (0 + k) itemHash).1 = Pending).
  { rewrite tryItem_promise_eq. cbn [Nat.add]. by rewrite Hdyes, Hload. }
  pose proof (loadLoop_pending g g equipment _ 0
                {| children := []; loadedCount := 0 |} k itemHash
                (sameManifest_refl g) Hk Hp) as Hnone.
  destruct (BungieAuth.itemHashes equipment) as [|h hs]; [done|].
  cbn [length Nat.ltb Nat.leb].
  destruct (loadLoop load g equipment (h :: hs) 0 _) as [st g'].
  cbn in Hnone. by subst st.
Qed.

End InitFacts.

Section InitRuns.
Import Js Main.

(** The sample character has a helmet (item 222) and legs (item 111).
    When the loader reports an error for the helmet, the legs are shown;
    when the callback throws for the helmet, nothing is. *)
Lemma thrown_callback_stalls_the_load_witness :
  (onSelect Sample.loader Sample.Math_tan Sample.boundingBox
     Sample.manifest_shader Sample.profile "2305843009000000001").1
  = Resolved {| status := "";
                scene := Some ([PlainMesh "item_111"],
                               frameGroup Sample.Math_tan Sample.flat Sample.flat) |}
  ∧ (onSelect Sample.loader_malformed Sample.Math_tan Sample.boundingBox
       Sample.manifest_shader Sample.profile "2305843009000000001").1
    = Pending.
Proof.
  split; [vm_compute; reflexivity|].
  apply (thrown_callback_stalls_the_load Sample.loader_malformed
           Sample.Math_tan Sample.boundingBox Sample.manifest_shader
           Sample.profile "2305843009000000001" Sample.parsed 0 222
           (Some [Sample.dyeB; Sample.dyeA]) None
           (TypeError "Cannot read properties of undefined (reading 'x')")).
  - vm_compute. reflexivity.
  - reflexivity.
  - vm_compute. reflexivity.
  - reflexivity.
Defined.

Lemma offered_character_is_loaded_witness :
  ∃ page,
    (onSelect Sample.loader Sample.Math_tan Sample.boundingBox
       Sample.manifest_fresh Sample.profile "2305843009000000001").1
    = Resolved page
    ∧ fst <$> scene page = Some [PlainMesh "item_111"]
    ∧ status page = "".
Proof.
  destruct (offered_character_is_loaded Sample.loader Sample.Math_tan
              Sample.boundingBox Sample.manifest_fresh Sample.profile
              {[ "2305843009000000001" := Sample.hunter ]}
              {[ "2305843009000000001" :=
                   {| BungieAuth.items := Some Sample.equipped |} ]}
              "2305843009000000001" eq_refl eq_refl)
    as (equipment & Hparse & _ & Hpage).
  - apply elem_of_dom. eexists. vm_compute. reflexivity.
  - assert (equipment = Sample.parsed) as ->.
    { vm_compute in Hparse. by injection Hparse. }
    destruct Hpage as (page & Hpage & Hshown & _).
    + intros [|[|k]] h Hk; [injection Hk as <-; vm_compute; discriminate..|
        discriminate Hk].
    + exists page. split; [exact Hpage|]. apply Hshown.
      vm_compute. discriminate.
Defined.

Lemma unshaded_item_skips_manifest_witness :
  tryItem Sample.loader Sample.manifest_fresh Sample.parsed 1 111
  = (Resolved (PlainMesh "item_111"), Sample.manifest_fresh).
Proof.
  rewrite (unshaded_item_skips_manifest Sample.loader Sample.manifest_fresh
             Sample.parsed 1 111 (or_introl eq_refl)).
  vm_compute. reflexivity.
Defined.

Lemma nothing_loaded_is_reported :
  (onSelect Sample.loader_down Sample.Math_tan Sample.boundingBox
     Sample.manifest_shader Sample.profile "2305843009000000001").1
  = Resolved {| status := "Error: No se pudo cargar ninguna pieza de armadura.";
                scene := None |}.
Proof. vm_compute. reflexivity. Qed.

End InitRuns.

(** ** Tokens and authenticated requests *)

Section Tokens.
Import Js Auth.

Variable cfg : Config.

Lemma getStoredTokens_stored now now' tokenResponse w :
  getStoredTokens now' (storeTokens now tokenResponse w).2
  = match expiresAt (storeTokens now tokenResponse w).1 with
    | Some e =>
        if truthy e && (e <? now') then None
        else Some (storeTokens now tokenResponse w).1
    | None => Some (storeTokens now tokenResponse w).1
    end.
Proof. reflexivity. Qed.

Lemma toDouble_exact z : Z.abs z < 2 ^ 53 → toDouble z = Some z.
Proof. intros H. unfold toDouble. apply Z.ltb_lt in H. by rewrite H. Qed.

Lemma expiryOf_exact now e :
  0 ≤ now → 0 ≤ e → now + e * 1000 < 2 ^ 53 →
  expiryOf now e = Some (now + e * 1000).
Proof.
  intros Hnow He Hlt. unfold expiryOf.
  rewrite (toDouble_exact e) by lia. cbn.
  rewrite (toDouble_exact (e * 1000)) by lia. cbn.
  apply toDouble_exact. lia.
Qed.

(** Beyond 2^53 the expiry is the rounded one: a lifetime of 2^52 + 1
    seconds stored at time 1000. *)
Lemma expiryOf_rounds :
  expiryOf 1000 (2 ^ 52 + 1) = Some 4503599627370498048
  ∧ 1000 + (2 ^ 52 + 1) * 1000 = 4503599627370498000.
Proof. split; vm_compute; reflexivity. Qed.

(** X1. Tokens stored at a time [now] after the epoch with a lifetime of
    [e] seconds, where [e] is not negative and the expiry [now + 1000 e]
    is below 2^53 (so that it is computed without rounding), are given
    back at every time up to [now + 1000 e], that instant included, and
    are not given back after it; stored without a lifetime they are given
    back at every time. *)
Theorem stored_tokens_last_until_expiry now now' tokenResponse w :
  0 < now →
  let tokens := (storeTokens now tokenResponse w).1 in
  let w' := (storeTokens now tokenResponse w).2 in
  (∀ e, expires_in tokenResponse = Some e → 0 ≤ e →
     now + e * 1000 < 2 ^ 53 →
     expiresAt tokens = Some (now + e * 1000)
     ∧ (now' ≤ now + e * 1000 → getStoredTokens now' w' = Some tokens)
     ∧ (now + e * 1000 < now' → getStoredTokens now' w' = None))
  ∧ (expires_in tokenResponse = None → getStoredTokens now' w' = Some tokens).
Proof.
  intros Hnow tokens w'. subst tokens w'. split.
  - intros e He Hpos Hsafe. rewrite getStoredTokens_stored. cbn. rewrite He. cbn.
    rewrite expiryOf_exact by lia.
    split; [done|]. split; intros Hcmp.
    + destruct (now + e * 1000 <? now') eqn:Hlt; [apply Z.ltb_lt in Hlt; lia|].
      by rewrite andb_false_r.
    + assert (truthy (now + e * 1000) = true) as ->.
      { unfold truthy. apply negb_true_iff, Z.eqb_neq. nia. }
      apply Z.ltb_lt in Hcmp. by rewrite Hcmp.
  - intros He. rewrite getStoredTokens_stored. cbn. by rewrite He.
Qed.

(** X2. After [clearTokens] nobody is authenticated, at any time and
    whatever was stored, and a request for the membership fails with
    "Not authenticated" without anything being sent or stored: the cached
    membership is gone with the tokens. *)
Theorem clearTokens_logs_out
    (fetch : nat → Request → Net (Envelope Memberships)) now w :
  isAuthenticated now (clearTokens w) = false
  ∧ getCurrentUserMembership cfg fetch now (clearTokens w)
    = (Throw (Error "Not authenticated"), clearTokens w).
Proof. split; reflexivity. Qed.

(** X3. [fetchWithAuth] sends nothing and changes nothing when no
    unexpired tokens are stored. Otherwise it sends exactly one request,
    to the endpoint under /bungie; every header of the caller is in it as
    given, and unless the caller sets them the request carries the API key
    and the stored access token as bearer. *)
Theorem fetchWithAuth_request {A} (fetch : nat → Request → Net A) now
    endpoint (options_headers : gmap string string) w :
  (getStoredTokens now w = None →
     fetchWithAuth cfg fetch now endpoint options_headers w
     = (Throw (Error "Not authenticated"), w))
  ∧ (∀ tokens, getStoredTokens now w = Some tokens →
     ∃ req,
       requests (fetchWithAuth cfg fetch now endpoint options_headers w).2
       = requests w ++ [req]
       ∧ url req = "/bungie" +:+ endpoint
       ∧ (∀ k v, options_headers !! k = Some v → headers req !! k = Some v)
       ∧ (options_headers !! "X-API-Key" = None →
          headers req !! "X-API-Key" = Some (apiKey cfg))
       ∧ (options_headers !! "Authorization" = None →
          headers req !! "Authorization"
          = Some ("Bearer " +:+ or_else (accessToken tokens) "undefined"))).
Proof.
  unfold fetchWithAuth. split.
  - by intros ->.
  - intros tokens ->. cbn zeta.
    eexists. split.
    { destruct (fetch _ _) as [e|response]; [done|].
      by destruct (status response =? 401). }
    split; [done|]. cbn [headers]. split.
    { intros k v Hk. apply lookup_union_Some_raw. by left. }
    split; intros Hnone; rewrite lookup_union_r by done.
    + rewrite lookup_insert_eq. done.
    + rewrite lookup_insert_ne by done. by rewrite lookup_singleton_eq.
Qed.

(** X4. When unexpired tokens are stored and the API answers the request
    with status 401, [fetchWithAuth] throws "Authentication expired" and
    logs the user out: tokens and cached membership are removed, so
    nobody is authenticated afterwards. With any other status the
    response is returned and the three stored values stay as they
    were. *)
Theorem fetchWithAuth_401_logs_out {A} (fetch : nat → Request → Net A) now
    endpoint (options_headers : gmap string string) w tokens response :
  getStoredTokens now w = Some tokens →
  (∀ req, fetch (length (requests w)) req = netResponse response) →
  let r := (fetchWithAuth cfg fetch now endpoint options_headers w).1 in
  let w' := (fetchWithAuth cfg fetch now endpoint options_headers w).2 in
  (status response = 401 →
     r = Throw (Error "Authentication expired")
     ∧ bungie_oauth_tokens w' = None ∧ bungie_membership w' = None
     ∧ ∀ now', isAuthenticated now' w' = false)
  ∧ (status response ≠ 401 →
     r = Ok response
     ∧ bungie_oauth_tokens w' = bungie_oauth_tokens w
     ∧ bungie_membership w' = bungie_membership w
     ∧ oauth_state w' = oauth_state w).
Proof.
  intros Htok Hfetch r w'. subst r w'. unfold fetchWithAuth.
  rewrite Htok. cbn zeta. rewrite Hfetch. split; intros Hs.
  - apply Z.eqb_eq in Hs. rewrite Hs. by cbn.
  - apply Z.eqb_neq in Hs. rewrite Hs. by cbn.
Qed.

End Tokens.

Section TokensRuns.
Import Js Auth.

Lemma stored_tokens_last_until_expiry_witness :
  getStoredTokens 3601000 (storeTokens 1000 Session.tokenData Session.returning).2
  = Some (storeTokens 1000 Session.tokenData Session.returning).1
  ∧ getStoredTokens 3601001 (storeTokens 1000 Session.tokenData Session.returning).2
    = None.
Proof.
  split.
  - destruct (proj1 (stored_tokens_last_until_expiry 1000 3601000
                       Session.tokenData Session.returning ltac:(lia))
                3600 eq_refl ltac:(lia) ltac:(reflexivity)) as (_ & H & _).
    apply H. cbn. lia.
  - destruct (proj1 (stored_tokens_last_until_expiry 1000 3601001
                       Session.tokenData Session.returning ltac:(lia))
                3600 eq_refl ltac:(lia) ltac:(reflexivity)) as (_ & _ & H).
    apply H. cbn. lia.
Defined.

Lemma fetchWithAuth_401_logs_out_witness :
  (fetchWithAuth Session.cfg (@Session.unauthorized nat) 4000 "/Platform/x" ∅
     Session.loggedIn).1
  = Throw (Error "Authentication expired")
  ∧ ∀ now', isAuthenticated now'
      (fetchWithAuth Session.cfg (@Session.unauthorized nat) 4000 "/Platform/x" ∅
         Session.loggedIn).2 = false.
Proof.
  destruct (fetchWithAuth_401_logs_out Session.cfg (@Session.unauthorized nat) 4000
              "/Platform/x" ∅ Session.loggedIn
              {| accessToken := Some "abc"; refreshToken := None;
                 expiresAt := Some 5000; tokens_membershipId := Some "77" |}
              {| status := 401; text := "";
                 json := Throw (SyntaxError "Unexpected end of JSON input") |}
              eq_refl (λ _, eq_refl)) as [H _].
  destruct (H eq_refl) as (Hr & _ & _ & Hauth). by split.
Defined.

End TokensRuns.

(** ** The OAuth callback *)

Section OAuthCallback.
Import Js Auth.

Variable cfg : Config.

(** The three checks the callback makes before it talks to the token
    endpoint. *)
Local Abbreviation checksPass w :=
  (truthyString (error (search w)) = false
   ∧ truthyString (code (search w)) = true
   ∧ state (search w) = oauth_state w).

Lemma handleOAuthCallback_checked fetch now w :
  checksPass w →
  handleOAuthCallback cfg fetch now w
  = let req := tokenRequest cfg (or_else (code (search w)) "") in
    let w1 := sent req (withoutState w) in
    match fetch (length (requests w)) req with
    | netError e => (Throw e, w1)
    | netResponse tokenResponse =>
        if negb (ok tokenResponse)
        then (Throw (Error ("Token exchange failed: "
                              +:+ pretty (status tokenResponse))), w1)
        else
          match json tokenResponse with
          | Throw e => (Throw e, w1)
          | Ok tokenData =>
              (Ok (Some (storeTokens now tokenData w1).1),
               withoutSearch (storeTokens now tokenData w1).2)
          end
    end.
Proof.
  intros (He & Hc & Hs). unfold handleOAuthCallback.
  rewrite He, Hc, Hs. rewrite bool_decide_eq_true_2 by done. cbn.
  destruct (fetch _ _) as [e|r]; [done|].
  destruct (ok r); [|done]. cbn. by destruct (json r).
Qed.

(** X5. Unless the page carries a non-empty code, no error, and a state
    equal to the one kept in the session, the callback returns no tokens
    and leaves everything as it was: nothing is stored, the kept state
    stays, and nothing is sent. A code whose state differs from the kept
    one is answered with "Invalid OAuth state". *)
Theorem callback_without_valid_state_has_no_effect fetch now w :
  ¬ checksPass w →
  (handleOAuthCallback cfg fetch now w).2 = w
  ∧ (∀ tokens, (handleOAuthCallback cfg fetch now w).1 ≠ Ok (Some tokens))
  ∧ (truthyString (error (search w)) = false →
     truthyString (code (search w)) = true →
     (handleOAuthCallback cfg fetch now w).1
     = Throw (Error "Invalid OAuth state")).
Proof.
  intros Hno. unfold handleOAuthCallback.
  destruct (truthyString (error (search w))) eqn:He; [by repeat split|].
  destruct (truthyString (code (search w))) eqn:Hc; [|by repeat split].
  cbn. rewrite bool_decide_eq_false_2 by tauto. by repeat split.
Qed.

(** X6. When the three checks pass (the state of the page equals the kept
    one, also when neither is there) and the token endpoint answers with a
    2xx status and a readable body, the callback sends one request, which
    carries the code, returns the tokens and stores them, forgets the
    kept state and clears the query of the page. Run again as the page
    then is, it returns null and changes nothing; run again on the
    callback address it was first given, with its state, it throws
    "Invalid OAuth state". *)
Theorem callback_exchanges_code_once fetch now w c response tokenData :
  truthyString (error (search w)) = false →
  code (search w) = Some c → c ≠ "" →
  state (search w) = oauth_state w →
  fetch (length (requests w)) (tokenRequest cfg c) = netResponse response →
  ok response = true →
  json response = Ok tokenData →
  ∃ tokens w',
    handleOAuthCallback cfg fetch now w = (Ok (Some tokens), w')
    ∧ bungie_oauth_tokens w' = Some (objectText tokens)
    ∧ accessToken tokens = access_token tokenData
    ∧ oauth_state w' = None
    ∧ search w' = noSearch
    ∧ requests w' = requests w ++ [tokenRequest cfg c]
    ∧ (∀ fetch' now', handleOAuthCallback cfg fetch' now' w' = (Ok None, w'))
    ∧ (∀ fetch' now' s, state (search w) = Some s →
         handleOAuthCallback cfg fetch' now' (visit (search w) w')
         = (Throw (Error "Invalid OAuth state"), visit (search w) w')).
Proof.
  intros He Hc Hne Hs Hfetch Hok Hjson.
  assert (Htruthy : truthyString (code (search w)) = true).
  { rewrite Hc. cbn. apply negb_true_iff, String.eqb_neq. done. }
  rewrite handleOAuthCallback_checked by done.
  rewrite Hc. cbn [or_else]. cbn zeta. rewrite Hfetch, Hok, Hjson. cbn [negb].
  eexists _, _. split; [reflexivity|]. cbn.
  do 5 (split; [done|]). split.
  - intros fetch' now'. reflexivity.
  - intros fetch' now' s Hst. unfold handleOAuthCallback. cbn.
    rewrite He, Htruthy, Hst. cbn. done.
Qed.

(** X7. Once the three checks have passed, the kept state is gone whatever
    the token endpoint does, and one request has been sent; when the
    exchange fails (the network, a status outside 200-299, an unreadable
    body) an exception is thrown and the stored tokens and the query of
    the page stay as they were. *)
Theorem callback_consumes_state fetch now w :
  checksPass w →
  let r := (handleOAuthCallback cfg fetch now w).1 in
  let w' := (handleOAuthCallback cfg fetch now w).2 in
  oauth_state w' = None
  ∧ length (requests w') = S (length (requests w))
  ∧ ((∃ tokens, r = Ok (Some tokens))
     ∨ ((∃ e, r = Throw e)
        ∧ bungie_oauth_tokens w' = bungie_oauth_tokens w
        ∧ search w' = search w)).
Proof.
  intros Hchecks r w'. subst r w'.
  rewrite handleOAuthCallback_checked by done. cbn zeta.
  destruct (fetch _ _) as [e|response]; cbn.
  { rewrite length_app. cbn. split; [done|]. split; [lia|]. right. eauto. }
  destruct (ok response); cbn.
  - destruct (json response) as [tokenData|e]; cbn.
    + rewrite length_app. cbn. split; [done|]. split; [lia|]. left. eauto.
    + rewrite length_app. cbn. split; [done|]. split; [lia|]. right. eauto.
  - rewrite length_app. cbn. split; [done|]. split; [lia|]. right. eauto.
Qed.

(** X19. The callback never touches the cached membership: whatever its
    outcome, the cache is as before. So after a login that succeeds while
    a membership is cached, [getCurrentUserMembership] still returns the
    cached one, without asking the API whose membership the new tokens
    are. *)
Theorem callback_keeps_cached_membership fetch now w :
  bungie_membership (handleOAuthCallback cfg fetch now w).2 = bungie_membership w
  ∧ ∀ cached, bungie_membership w = Some (objectText cached) →
      ∀ fetch' now',
        (getCurrentUserMembership cfg fetch' now'
           (handleOAuthCallback cfg fetch now w).2).1
        = Ok (Some cached)
        ∧ requests (getCurrentUserMembership cfg fetch' now'
                      (handleOAuthCallback cfg fetch now w).2).2
          = requests (handleOAuthCallback cfg fetch now w).2.
Proof.
  assert (Hkeep : bungie_membership (handleOAuthCallback cfg fetch now w).2
                  = bungie_membership w).
  { unfold handleOAuthCallback.
    destruct (truthyString (error (search w))); [done|].
    destruct (negb (truthyString (code (search w)))); [done|].
    destruct (negb (bool_decide _)); [done|]. cbn zeta.
    destruct (fetch _ _) as [e|response]; [done|].
    destruct (negb (ok response)); [done|].
    by destruct (json response). }
  split; [exact Hkeep|].
  intros cached Hcached fetch' now'. unfold getCurrentUserMembership.
  by rewrite Hkeep, Hcached.
Qed.

End OAuthCallback.

Section OAuthCallbackRuns.
Import Js Auth.

Lemma callback_without_valid_state_has_no_effect_witness :
  handleOAuthCallback Session.cfg Session.tokenEndpoint 1000 Session.forged
  = (Throw (Error "Invalid OAuth state"), Session.forged).
Proof.
  destruct (callback_without_valid_state_has_no_effect Session.cfg
              Session.tokenEndpoint 1000 Session.forged) as (Hw & _ & Hr).
  - intros (_ & _ & Hs). discriminate Hs.
  - rewrite (surjective_pairing (handleOAuthCallback _ _ _ _)).
    rewrite Hw, Hr; reflexivity.
Defined.

Lemma callback_exchanges_code_once_witness :
  ∃ tokens w',
    handleOAuthCallback Session.cfg Session.tokenEndpoint 1000 Session.returning
    = (Ok (Some tokens), w')
    ∧ getStoredTokens 2000 w' = Some tokens
    ∧ oauth_state w' = None.
Proof.
  destruct (callback_exchanges_code_once Session.cfg Session.tokenEndpoint 1000
              Session.returning "c0de"
              {| status := 200; text := ""; json := Ok Session.tokenData |}
              Session.tokenData eq_refl eq_refl ltac:(discriminate) eq_refl
              eq_refl eq_refl eq_refl)
    as (tokens & w' & Hrun & Hstored & _ & Hstate & _).
  exists tokens, w'. split; [exact Hrun|]. split; [|exact Hstate].
  vm_compute in Hrun. injection Hrun as <- <-. reflexivity.
Defined.

Lemma callback_consumes_state_witness :
  oauth_state
    (handleOAuthCallback Session.cfg (@Session.unauthorized TokenResponse) 1000
       Session.returning).2 = None
  ∧ length (requests
      (handleOAuthCallback Session.cfg (@Session.unauthorized TokenResponse) 1000
         Session.returning).2) = 1%nat.
Proof.
  destruct (callback_consumes_state Session.cfg (@Session.unauthorized TokenResponse) 1000
              Session.returning) as (H1 & H2 & _).
  - repeat split.
  - split; [exact H1 | exact H2].
Defined.

End OAuthCallbackRuns.

(** ** The membership of the user *)

Section Membership.
Import Js Auth.

Variable cfg : Config.

(** [Array.prototype.find] gives the first element that passes the
    test. *)
Lemma find_first {A} (f : A → bool) (l : list A) x :
  find f l = Some x →
  ∃ i, l !! i = Some x ∧ f x = true
    ∧ ∀ j y, (j < i)%nat → l !! j = Some y → f y = false.
Proof.
  induction l as [|a l IH]; [done|]. cbn.
  destruct (f a) eqn:Ha.
  - intros [= <-]. exists 0%nat. repeat split; [done|]. intros j y Hj. lia.
  - intros Hfind. destruct (IH Hfind) as (i & Hi & Hx & Hbefore).
    exists (S i). repeat split; [done..|].
    intros [|j] y Hj; cbn; [by intros [= <-]|]. apply Hbefore. lia.
Qed.

Lemma find_none_all {A} (f : A → bool) (l : list A) :
  find f l = None → ∀ y, y ∈ l → f y = false.
Proof.
  intros Hfind y Hy. apply list_elem_of_In in Hy. by apply (find_none f l).
Qed.

(** The membership picked: the first with the primary id, or the first of
    all when none has it; none only from an empty list. *)
Lemma pickMembership_spec (data : Memberships) :
  match pickMembership data with
  | Some m =>
      ∃ i, destinyMemberships data !! i = Some m
        ∧ ((m_membershipId m = primaryMembershipId data
            ∧ ∀ j m', (j < i)%nat → destinyMemberships data !! j = Some m' →
                m_membershipId m' ≠ primaryMembershipId data)
           ∨ (i = 0%nat
              ∧ ∀ m', m' ∈ destinyMemberships data →
                  m_membershipId m' ≠ primaryMembershipId data))
  | None => destinyMemberships data = []
  end.
Proof.
  unfold pickMembership.
  destruct (find _ (destinyMemberships data)) as [m|] eqn:Hfind.
  - destruct (find_first _ _ _ Hfind) as (i & Hi & Hm & Hbefore).
    exists i. split; [done|]. left. split.
    + by apply bool_decide_eq_true in Hm.
    + intros j m' Hj Hm'. specialize (Hbefore j m' Hj Hm').
      by apply bool_decide_eq_false in Hbefore.
  - pose proof (find_none_all _ _ Hfind) as Hnone.
    destruct (destinyMemberships data) as [|m0 rest] eqn:Hl; [done|].
    cbn. exists 0%nat. split; [done|]. right. split; [done|].
    intros m' Hm'. specialize (Hnone m' Hm').
    by apply bool_decide_eq_false in Hnone.
Qed.

Lemma ok_not_401 {A} (response : Response A) :
  ok response = true → (status response =? 401) = false.
Proof.
  unfold ok. intros H. apply andb_true_iff in H as [_ H].
  apply Z.leb_le in H. apply Z.eqb_neq. lia.
Qed.

(** What [getCurrentUserMembership] does when nothing is cached, tokens
    are stored and the API answers with a list of memberships. *)
Lemma getCurrentUserMembership_fetched
    (fetch : nat → Request → Net (Envelope Memberships)) now w tokens
    response envelope data :
  bungie_membership w = None ∨ bungie_membership w = Some emptyText →
  getStoredTokens now w = Some tokens →
  (∀ req, fetch (length (requests w)) req = netResponse response) →
  ok response = true →
  json response = Ok envelope →
  ErrorCode envelope = 1 →
  Response_ envelope = Some data →
  ∃ w1,
    bungie_membership w1 = bungie_membership w
    ∧ bungie_oauth_tokens w1 = bungie_oauth_tokens w
    ∧ getCurrentUserMembership cfg fetch now w
      = match pickMembership data with
        | None => (Throw (Error "No Destiny 2 membership found"), w1)
        | Some membership =>
            let membershipInfo :=
              {| membershipType := m_membershipType membership;
                 membershipId := m_membershipId membership;
                 displayName := displayNameOf membership;
                 iconPath := m_iconPath membership |} in
            (Ok (Some membershipInfo), cacheMembership membershipInfo w1)
        end.
Proof.
  intros Hcache Htok Hfetch Hok Hjson Hcode Hresp.
  unfold getCurrentUserMembership, fetchWithAuth.
  rewrite Htok. cbn zeta. rewrite Hfetch, (ok_not_401 _ Hok), Hok, Hjson.
  cbn [negb]. rewrite Hcode, Hresp. cbn [Z.eqb Pos.eqb negb].
  eexists. split; [|split]; [| |destruct Hcache as [-> | ->]; reflexivity];
    cbn; done.
Qed.

(** X8. With nothing cached, tokens stored and a successful answer of the
    API, [getCurrentUserMembership] fails with "No Destiny 2 membership
    found" exactly when the list of memberships is empty. Otherwise it
    returns and caches the first membership whose id is the primary id,
    or the first membership of the list when none has it; every later
    call then returns the same, at any time and whatever the network
    does, without sending anything. *)
Theorem membership_primary_else_first
    (fetch : nat → Request → Net (Envelope Memberships)) now w tokens
    response envelope data :
  bungie_membership w = None ∨ bungie_membership w = Some emptyText →
  getStoredTokens now w = Some tokens →
  (∀ req, fetch (length (requests w)) req = netResponse response) →
  ok response = true →
  json response = Ok envelope →
  ErrorCode envelope = 1 →
  Response_ envelope = Some data →
  let r := (getCurrentUserMembership cfg fetch now w).1 in
  let w' := (getCurrentUserMembership cfg fetch now w).2 in
  (destinyMemberships data = [] ↔ r = Throw (Error "No Destiny 2 membership found"))
  ∧ (destinyMemberships data ≠ [] →
     ∃ i membership info,
       destinyMemberships data !! i = Some membership
       ∧ ((m_membershipId membership = primaryMembershipId data
           ∧ ∀ j m', (j < i)%nat → destinyMemberships data !! j = Some m' →
               m_membershipId m' ≠ primaryMembershipId data)
          ∨ (i = 0%nat
             ∧ ∀ m', m' ∈ destinyMemberships data →
                 m_membershipId m' ≠ primaryMembershipId data))
       ∧ r = Ok (Some info)
       ∧ membershipType info = m_membershipType membership
       ∧ membershipId info = m_membershipId membership
       ∧ bungie_membership w' = Some (objectText info)
       ∧ ∀ fetch' now',
           getCurrentUserMembership cfg fetch' now' w' = (Ok (Some info), w')).
Proof.
  intros Hcache Htok Hfetch Hok Hjson Hcode Hresp r w'. subst r w'.
  destruct (getCurrentUserMembership_fetched fetch now w tokens response
              envelope data Hcache Htok Hfetch Hok Hjson Hcode Hresp)
    as (w1 & _ & _ & ->).
  pose proof (pickMembership_spec data) as Hpick.
  destruct (pickMembership data) as [membership|]; cbn.
  - destruct Hpick as (i & Hi & Hwhich). split.
    + split; [|done]. intros Hnil. by rewrite Hnil in Hi.
    + intros _. exists i, membership. eexists.
      split; [done|]. split; [done|]. by repeat split.
  - by rewrite Hpick.
Qed.

End Membership.

Section MembershipRuns.
Import Js Auth.

Lemma membership_primary_else_first_witness :
  (getCurrentUserMembership Session.cfg Session.membershipsEndpoint 4000
     Session.loggedIn).1
  = Ok (Some {| membershipType := 1;
                membershipId := Some "4611686018000000002";
                displayName := Some "bob"; iconPath := None |}).
Proof.
  destruct (membership_primary_else_first Session.cfg
              Session.membershipsEndpoint 4000 Session.loggedIn
              {| accessToken := Some "abc"; refreshToken := None;
                 expiresAt := Some 5000; tokens_membershipId := Some "77" |}
              {| status := 200; text := "";
                 json := Ok {| ErrorCode := 1; Message := "Ok";
                               Response_ := Some Session.memberships |} |}
              {| ErrorCode := 1; Message := "Ok";
                 Response_ := Some Session.memberships |}
              Session.memberships (or_introl eq_refl) eq_refl (λ _, eq_refl)
              eq_refl eq_refl eq_refl eq_refl) as [_ H].
  destruct (H ltac:(discriminate)) as (i & m & info & _ & _ & Hr & _).
  vm_compute. reflexivity.
Defined.

End MembershipRuns.

(** ** More on equipment resolution *)

Section EquipmentMore.
Import Js BungieAuth.

Lemma findItem_filter_armor items h :
  In h (map snd ARMOR_BUCKETS) →
  findItem (List.filter Variation.isArmor items) h = findItem items h.
Proof.
  intros Hh. unfold findItem. induction items as [|item items IH]; [done|].
  cbn [List.filter]. destruct (Variation.isArmor item) eqn:Harmor; cbn [find].
  - by rewrite IH.
  - destruct (bucketHash item =? h) eqn:Heq; [|done].
    apply Z.eqb_eq in Heq. subst h. exfalso.
    unfold Variation.isArmor in Harmor.
    assert (existsb (λ b, bucketHash item =? b.2) ARMOR_BUCKETS = true);
      [|congruence].
    apply existsb_exists. apply in_map_iff in Hh as (b & Hb & Hin).
    exists b. split; [done|]. apply Z.eqb_eq. done.
Qed.

Lemma armorLoop_filter_armor items itemSockets peerViewEquipment :
  armorLoop (List.filter Variation.isArmor items) itemSockets peerViewEquipment
  = armorLoop items itemSockets peerViewEquipment.
Proof.
  unfold armorLoop, ARMOR_BUCKETS. cbn [fold_left]. unfold bucketStep.
  cbn [fst snd].
  rewrite !findItem_filter_armor by (cbn; tauto). reflexivity.
Qed.

Lemma itemsIn_insert characterId its equipment :
  itemsIn (<[characterId := {| items := Some its |}]> equipment) characterId
  = its.
Proof. unfold itemsIn. by rewrite lookup_insert_eq. Qed.

(** X9. Items outside the five armor buckets (weapons, ghost, emblem, ...)
    have no part in the result: the call returns the same, or throws the
    same, when they are taken out of the equipment of the character. *)
Theorem parse_ignores_other_buckets p characterId :
  parseEquipmentForLoader
    (Variation.withItems characterId
       (List.filter Variation.isArmor (itemsOf p characterId)) p) characterId
  = parseEquipmentForLoader p characterId.
Proof.
  unfold parseEquipmentForLoader, itemsOf, Variation.withItems.
  cbn [characters characterEquipment itemComponents_sockets_data].
  destruct (characters p) as [| |chars]; [by destruct (characterEquipment p)..|].
  destruct (characterEquipment p) as [| |equipment]; [done..|].
  rewrite itemsIn_insert, armorLoop_filter_armor. reflexivity.
Qed.

(** X10. The sockets of the items have no part in which items are
    resolved: with any other socket component, or none, the call throws
    alike or returns the same character, item hashes, armor details and
    dyes; only the shader hashes may differ. In particular a plug in
    socket 0 or 1 (an ornament) never replaces the hash of an item. *)
Theorem parse_items_independent_of_sockets p sockets' characterId :
  match parseEquipmentForLoader p characterId,
        parseEquipmentForLoader (Variation.withSockets sockets' p) characterId with
  | Ok r, Ok r' =>
      character r' = character r
      ∧ itemHashes r' = itemHashes r
      ∧ armorDetails r' = armorDetails r
      ∧ itemDyes r' = itemDyes r
      ∧ peerViewEquipment r' = peerViewEquipment r
      ∧ length (shaderHashes r') = length (shaderHashes r)
  | Throw e, Throw e' => e' = e
  | _, _ => False
  end.
Proof.
  unfold parseEquipmentForLoader, Variation.withSockets.
  cbn [characters characterEquipment itemComponents_sockets_data].
  change (peerViewEquipmentOf
            {| characters := characters p;
               characterEquipment := characterEquipment p;
               itemComponents_sockets_data := sockets';
               characterRenderData_data := characterRenderData_data p |}
            characterId) with (peerViewEquipmentOf p characterId).
  destruct (characters p) as [| |chars]; [by destruct (characterEquipment p)..|].
  destruct (characterEquipment p) as [| |equipment]; [done..|].
  cbn zeta.
  destruct (getProperty chars characterId) as [c| |]; [| |done];
    cbn [character itemHashes armorDetails itemDyes peerViewEquipment
         shaderHashes];
    unfold armorLoop;
    destruct (fold_bucketStep (itemsIn equipment characterId)
                (or_else (itemComponents_sockets_data p) ∅)
                (peerViewEquipmentOf p characterId) ARMOR_BUCKETS noArrays)
      as (-> & -> & ->);
    destruct (fold_bucketStep (itemsIn equipment characterId)
                (or_else sockets' ∅)
                (peerViewEquipmentOf p characterId) ARMOR_BUCKETS noArrays)
      as (-> & -> & ->);
    cbn [armorItems arr_shaderHashes arr_itemDyes noArrays app];
    (do 5 (split; [done|]));
    (etrans; [apply (length_omap_found _ (λ _ item, shaderHashOf _))|]);
    symmetry; apply (length_omap_found _ (λ _ item, shaderHashOf _)).
Qed.

(** X11. An item without socket state has the shader hash 0: when the
    profile has no entry for the instance of the item, or an entry
    without sockets; so a profile without socket component yields only
    zeros. *)
Theorem shaderHash_zero_without_sockets p characterId r :
  parseEquipmentForLoader p characterId = Ok r →
  (∀ i d, armorDetails r !! i = Some d →
     socketsOf (or_else (itemComponents_sockets_data p) ∅) (instanceId d) = None →
     shaderHashes r !! i = Some 0)
  ∧ (itemComponents_sockets_data p = None → Forall (λ h, h = 0) (shaderHashes r)).
Proof.
  intros Hr.
  assert (Hzero : ∀ i d, armorDetails r !! i = Some d →
            socketsOf (or_else (itemComponents_sockets_data p) ∅) (instanceId d)
            = None → shaderHashes r !! i = Some 0).
  { intros i d Hd Hnone.
    destruct (parse_entry _ _ _ _ _ Hr Hd) as (b & item & _ & _ & -> & _ & Hs & _).
    cbn in Hnone. by rewrite Hnone in Hs. }
  split; [exact Hzero|].
  intros Hnone. apply Forall_lookup. intros i h Hh.
  assert (Hlen : length (shaderHashes r) = length (armorDetails r)).
  { apply parse_Ok in Hr as (-> & _ & -> & _). unfold armorLoop.
    destruct (fold_bucketStep (itemsOf p characterId)
                (or_else (itemComponents_sockets_data p) ∅)
                (peerViewEquipmentOf p characterId) ARMOR_BUCKETS noArrays)
      as (-> & -> & _).
    cbn [armorItems arr_shaderHashes noArrays app].
    etrans; [apply (length_omap_found _ (λ _ item, shaderHashOf _))|].
    symmetry. apply (length_omap_found _ (λ b item,
      {| bucket := fst b; ad_itemHash := itemHash item;
         instanceId := itemInstanceId item |})). }
  destruct (lookup_lt_is_Some_2 (armorDetails r) i) as [d Hd].
  { rewrite <- Hlen. by apply lookup_lt_Some in Hh. }
  assert (shaderHashes r !! i = Some 0) as Hz; [|congruence].
  apply (Hzero i d Hd). rewrite Hnone. cbn. unfold socketsOf.
  by rewrite lookup_empty.
Qed.

End EquipmentMore.

Section EquipmentMoreRuns.
Import Js BungieAuth.

Lemma shaderHash_zero_without_sockets_witness :
  shaderHashes Sample.parsed !! 1%nat = Some 0.
Proof.
  apply (proj1 (shaderHash_zero_without_sockets Sample.profile
                  "2305843009000000001" Sample.parsed
                  ltac:(vm_compute; reflexivity)) 1%nat
           {| bucket := "LEGS"; ad_itemHash := 111;
              instanceId := "6917529000000000001" |}).
  - reflexivity.
  - vm_compute. reflexivity.
Defined.

End EquipmentMoreRuns.

(** ** Materials *)

Section Materials.
Import Js DestinyMaterial.

Lemma convertOne_no_uniforms mat : destinyUniforms (convertOne mat) = None.
Proof. by destruct mat. Qed.

(** X12. [updateDestinyDye] has no effect on any material this module
    makes: neither [createDestinyMaterial] nor [convertTGXMaterials] sets
    the uniforms the update writes to, so the material comes back as it
    was, whatever colours are asked for. *)
Theorem updateDestinyDye_has_no_effect primaryColor secondaryColor usePrimary :
  (∀ params,
     updateDestinyDye (createDestinyMaterial params) primaryColor
       secondaryColor usePrimary
     = createDestinyMaterial params)
  ∧ (∀ tgxMaterials,
     Forall (λ material,
               updateDestinyDye material primaryColor secondaryColor usePrimary
               = material)
       (convertTGXMaterials tgxMaterials)).
Proof.
  split; [done|].
  intros [mats|]; [|by constructor]. cbn.
  change (List.map convertOne mats) with (convertOne <$> mats).
  apply Forall_fmap, Forall_forall. intros mat _. cbn.
  unfold updateDestinyDye. by rewrite convertOne_no_uniforms.
Qed.

(** X13. [convertTGXMaterials] makes one material per entry of the array,
    in order (none for an argument that is not an array). The material of
    an entry with a diffuse map has that map and is given no colour; the
    material of an entry without one, a null entry included, is given a
    colour and no map. *)
Theorem converted_materials_map_or_colour (mats : list (option TGXMaterial)) :
  convertTGXMaterials None = []
  ∧ length (convertTGXMaterials (Some mats)) = length mats
  ∧ ∀ i entry, mats !! i = Some entry →
      ∃ material,
        convertTGXMaterials (Some mats) !! i = Some material
        ∧ map material = entry ≫= tgx_map
        ∧ (is_Some (map material) → color material = None)
        ∧ (map material = None → is_Some (color material)).
Proof.
  split; [done|]. cbn.
  change (List.map convertOne mats) with (convertOne <$> mats).
  split; [apply length_fmap|].
  intros i entry Hi. exists (convertOne entry).
  rewrite list_lookup_fmap, Hi. split; [done|].
  destruct entry as [mat|]; cbn.
  - destruct (tgx_map mat); cbn; repeat split; try done; by intros [? ?].
  - repeat split; try done; by intros [? ?].
Qed.

End Materials.

(** ** More on model assembly *)

Section SkeletonMore.
Import Js Main.

(** X15. A bone sequence in which every parent is negative or the index
    of an earlier bone is reproduced as it is: apart from the bone taken
    as root, a bone with a parent index hangs under the bone of that
    index, which precedes it, a bone with a negative or absent parent
    hangs nowhere, and no bone but the root hangs under the mesh. *)
Theorem well_formed_skeleton_reproduced itemHash b bs :
  Variation.parentsPrecede (b :: bs) →
  ∀ i boneData bone,
    (b :: bs) !! i = Some boneData →
    skeletonOf (createMesh itemHash {| bones := Some (b :: bs) |}) !! i
      = Some bone →
    rootBoneOf (createMesh itemHash {| bones := Some (b :: bs) |}) ≠ Some i →
    match parent boneData with
    | Some p =>
        if 0 <=? p
        then bone_parent bone = BoneParent (Z.to_nat p) ∧ (Z.to_nat p < i)%nat
        else bone_parent bone = NoParent
    | None => bone_parent bone = NoParent
    end.
Proof.
  intros Hwf i boneData bone Hdata Hbone Hroot.
  unfold createMesh in Hbone, Hroot. cbn [bones skeletonOf rootBoneOf] in *.
  rewrite list_lookup_alter_ne in Hbone by congruence.
  apply linked_parent in Hbone. rewrite Hbone.
  unfold Spec.attachedTo. rewrite Hdata. unfold parentInRange.
  destruct (parent boneData) as [p|] eqn:Hp; [|done].
  pose proof (Hwf i boneData p Hdata Hp) as Hlt.
  assert (Hi : (i < length (b :: bs))%nat) by (by apply lookup_lt_Some in Hdata).
  destruct (0 <=? p) eqn:Hp0; cbn [andb]; [|done].
  apply Z.leb_le in Hp0.
  assert ((p <? Z.of_nat (length (b :: bs))) = true) as ->
    by (apply Z.ltb_lt; lia).
  assert ((Z.to_nat p =? i)%nat = false) as -> by (apply Nat.eqb_neq; lia).
  split; [done|lia].
Qed.

(** X21. Of the bones of a skinned mesh exactly one hangs under the mesh:
    the bone taken as root. *)
Theorem only_root_hangs_under_mesh itemHash b bs :
  ∃ root,
    rootBoneOf (createMesh itemHash {| bones := Some (b :: bs) |}) = Some root
    ∧ (root < length (b :: bs))%nat
    ∧ ∀ i bone,
        skeletonOf (createMesh itemHash {| bones := Some (b :: bs) |}) !! i
          = Some bone →
        bone_parent bone = MeshParent ↔ i = root.
Proof.
  exists (findRoot (b :: bs) 0 0). split; [done|].
  assert (Hlt : (findRoot (b :: bs) 0 0 < length (b :: bs))%nat).
  { destruct (findRoot_last (b :: bs) 0 0)
      as [(j & bd & Hj & _ & -> & _)|[-> _]]; [|cbn; lia].
    apply lookup_lt_Some in Hj. lia. }
  split; [exact Hlt|].
  intros i bone. unfold createMesh. cbn [bones skeletonOf].
  destruct (decide (i = findRoot (b :: bs) 0 0)) as [->|Hne].
  - rewrite list_lookup_alter_eq.
    destruct (linkBones _ _ _ !! _) as [bone0|]; [|done].
    cbn. by intros [= <-].
  - rewrite list_lookup_alter_ne by done. intros Hbone.
    apply linked_parent in Hbone. rewrite Hbone.
    unfold Spec.attachedTo. split; [|done].
    destruct ((b :: bs) !! i) as [boneData|]; [|done].
    destruct (parentInRange _ _) as [p|]; [|done].
    by destruct (p =? i)%nat.
Qed.

End SkeletonMore.

Section SkeletonMoreRuns.
Import Js Main.

Lemma well_formed_skeleton_reproduced_witness :
  ∃ bone,
    skeletonOf (createMesh 1
      {| bones := Some [Sample.boneWithParent (-1); Sample.boneWithParent 0;
                        Sample.boneWithParent 0; Sample.boneWithParent 1] |})
      !! 3%nat = Some bone
    ∧ bone_parent bone = BoneParent 1 ∧ (1 < 3)%nat.
Proof.
  eexists. split; [vm_compute; reflexivity|].
  refine (well_formed_skeleton_reproduced 1 (Sample.boneWithParent (-1))
            [Sample.boneWithParent 0; Sample.boneWithParent 0;
             Sample.boneWithParent 1] _ 3%nat (Sample.boneWithParent 1) _
            eq_refl _ _).
  - intros [|[|[|[|i]]]] boneData p Hi Hp; cbn in Hi; try discriminate Hi;
      injection Hi as <-; cbn in Hp; injection Hp as <-; lia.
  - vm_compute. reflexivity.
  - vm_compute. discriminate.
Defined.

End SkeletonMoreRuns.

(** ** Start-up *)

Section StartUp.
Import Js Auth Main App.

Variable cfg : Config.
Variable fetchMemberships : nat → Request → Net (Envelope Memberships).
Variable fetchProfile : nat → Request → Net (Envelope BungieAuth.ProfileData).
Variable load : nat → Z → Options → LoaderResult.
Variable Math_tan : PrimFloat.float → PrimFloat.float.
Variable boundingBox : list Mesh → Vector3 * Vector3.
Variable now : nat → Z.

Local Abbreviation init' :=
  (init cfg fetchMemberships fetchProfile load Math_tan boundingBox now).

(** The page after the attempt at the test model, by what the loader
    did: the model alone in the scene with an empty status line, or the
    scene as before, with the given message or with the loading
    message. *)
Lemma loadTestModel_cases failed before :
  let page' := loadTestModel load Math_tan boundingBox failed before in
  match load 0%nat ITEM_HASH noOptions with
  | loaderOnLoad geometry =>
      status page' = ""
      ∧ fst <$> scene page' = Some [createMesh ITEM_HASH geometry]
  | loaderOnError _ => page' = {| status := failed; scene := scene before |}
  | loaderOnLoadThrows progress _ | loaderSilent progress =>
      page' = {| status := loadingStatus progress ITEM_HASH;
                 scene := scene before |}
  end.
Proof.
  unfold loadTestModel.
  destruct (load 0%nat ITEM_HASH noOptions)
    as [geometry|progress err|err|progress]; cbn; [|done..].
  unfold addMeshToScene, addGroupToScene.
  by destruct (boundingBox [createMesh ITEM_HASH geometry]).
Qed.

(** X16. A run of [init] on a page without OAuth code ends in one of two
    ways. Either the user is authenticated and the profile was fetched
    with its characters: the selector offers them and the login button is
    hidden. Or the login button is shown, the selector is as it was or
    offers no character, and the test model (item 1345867571) has been
    asked of the loader: once loaded it is alone in the scene and the
    status line is empty; when the loader reports an error the status
    line says so and the scene is as before; and when the callback of the
    loader throws or the loader never answers, the scene is as before and
    the status line stays at the loading message. With a code on the page
    nothing is done but the redirection. *)
Theorem init_selector_or_test_model ui w :
  let ui' := (init' ui w).1 in
  (truthyString (code (search w)) = true →
     redirected ui' = true ∧ page ui' = page ui ∧ (init' ui w).2 = w)
  ∧ (truthyString (code (search w)) = false →
     redirected ui' = false
     ∧ ((isAuthenticated (now 0%nat) w = true
         ∧ is_Some (selector ui') ∧ loginButton ui' = false
         ∧ scene (page ui') = scene (page ui))
        ∨ (loginButton ui' = true
           ∧ (selector ui' = selector ui ∨ selector ui' = Some ∅)
           ∧ match load 0%nat ITEM_HASH noOptions with
             | loaderOnLoad geometry =>
                 status (page ui') = ""
                 ∧ fst <$> scene (page ui')
                   = Some [createMesh ITEM_HASH geometry]
             | loaderOnError _ =>
                 scene (page ui') = scene (page ui)
                 ∧ (status (page ui') = "Error cargando modelo"
                    ∨ status (page ui') = "Error cargando modelo de prueba")
             | loaderOnLoadThrows progress _ | loaderSilent progress =>
                 scene (page ui') = scene (page ui)
                 ∧ status (page ui') = loadingStatus progress ITEM_HASH
             end))).
Proof.
  intros ui'. subst ui'. unfold init. split; intros Hcode; rewrite Hcode.
  { by cbn. }
  assert (Hfallback : ∀ failed sel,
    failed = "Error cargando modelo"
    ∨ failed = "Error cargando modelo de prueba" →
    sel = selector ui ∨ sel = Some ∅ →
    loginButton (fallback load Math_tan boundingBox failed sel ui) = true
    ∧ (selector (fallback load Math_tan boundingBox failed sel ui) = selector ui
       ∨ selector (fallback load Math_tan boundingBox failed sel ui) = Some ∅)
    ∧ match load 0%nat ITEM_HASH noOptions with
      | loaderOnLoad geometry =>
          status (page (fallback load Math_tan boundingBox failed sel ui)) = ""
          ∧ fst <$> scene (page (fallback load Math_tan boundingBox failed sel ui))
            = Some [createMesh ITEM_HASH geometry]
      | loaderOnError _ =>
          scene (page (fallback load Math_tan boundingBox failed sel ui))
          = scene (page ui)
          ∧ (status (page (fallback load Math_tan boundingBox failed sel ui))
             = "Error cargando modelo"
             ∨ status (page (fallback load Math_tan boundingBox failed sel ui))
               = "Error cargando modelo de prueba")
      | loaderOnLoadThrows progress _ | loaderSilent progress =>
          scene (page (fallback load Math_tan boundingBox failed sel ui))
          = scene (page ui)
          ∧ status (page (fallback load Math_tan boundingBox failed sel ui))
            = loadingStatus progress ITEM_HASH
      end).
  { intros failed sel Hfailed Hsel. cbn [fallback loginButton selector page].
    split; [done|]. split; [done|].
    pose proof (loadTestModel_cases failed (page ui)) as Hcases.
    cbn zeta in Hcases.
    destruct (load 0%nat ITEM_HASH noOptions)
      as [geometry|progress err|err|progress];
      [done| | |]; rewrite Hcases; cbn; [done| |done].
    split; [done|]. destruct Hfailed as [-> | ->]; [by left | by right]. }
  destruct (isAuthenticated (now 0%nat) w) eqn:Hauth.
  - destruct (loadProfile _ _ _ _ _) as [[profileData|e] w1].
    + destruct (BungieAuth.characters profileData) as [| |characters]; cbn [fst].
      * split; [done|]. right. apply Hfallback; by left.
      * split; [done|]. right. apply Hfallback; [by left | by right].
      * cbn. split; [done|]. left. by repeat split.
    + cbn [fst]. split; [done|]. right. apply Hfallback; by left.
  - cbn [fst]. split; [done|]. right. apply Hfallback; [by right | by left].
Qed.

(** X17. When an authenticated user starts the viewer with no membership
    cached and the API answers the membership request with status 401,
    the run ends logged out: the stored tokens are removed, nobody is
    authenticated afterwards, the login button is shown and no character
    is offered. *)
Theorem init_401_logs_out ui w tokens response :
  truthyString (code (search w)) = false →
  isAuthenticated (now 0%nat) w = true →
  bungie_membership w = None →
  getStoredTokens (now 1%nat) w = Some tokens →
  (∀ req, fetchMemberships (length (requests w)) req = netResponse response) →
  Auth.status response = 401 →
  loginButton (init' ui w).1 = true
  ∧ selector (init' ui w).1 = selector ui
  ∧ bungie_oauth_tokens (init' ui w).2 = None
  ∧ ∀ t, isAuthenticated t (init' ui w).2 = false.
Proof.
  intros Hcode Hauth Hcache Htok Hfetch Hstatus.
  unfold init. rewrite Hcode, Hauth.
  unfold loadProfile, getCurrentUserMembership, fetchWithAuth.
  rewrite Hcache, Htok. cbn zeta. rewrite Hfetch.
  apply Z.eqb_eq in Hstatus. rewrite Hstatus. cbn. by repeat split.
Qed.

(** X22. A membership cache that cannot be parsed keeps an authenticated
    user from the selector: the run ends with the login button shown and
    no character offered, whatever the network answers, and it leaves the
    stored values as they are, so every later run ends the same way until
    the cache is cleared. *)
Theorem init_with_corrupt_membership_cache ui w :
  truthyString (code (search w)) = false →
  isAuthenticated (now 0%nat) w = true →
  bungie_membership w = Some malformedText →
  loginButton (init' ui w).1 = true
  ∧ selector (init' ui w).1 = selector ui
  ∧ (init' ui w).2 = w.
Proof.
  intros Hcode Hauth Hcache. unfold init. rewrite Hcode, Hauth.
  unfold loadProfile, getCurrentUserMembership. rewrite Hcache. by cbn.
Qed.

End StartUp.

Section StartUpRuns.
Import Js Auth Main App.

Lemma init_401_logs_out_witness :
  loginButton
    (init Session.cfg (@Session.unauthorized _) Session.profileEndpoint
       Sample.loader Sample.Math_tan Sample.boundingBox (λ _, 4000)
       Session.blank Session.loggedIn).1 = true
  ∧ ∀ t, isAuthenticated t
      (init Session.cfg (@Session.unauthorized _) Session.profileEndpoint
         Sample.loader Sample.Math_tan Sample.boundingBox (λ _, 4000)
         Session.blank Session.loggedIn).2 = false.
Proof.
  destruct (init_401_logs_out Session.cfg (@Session.unauthorized _)
              Session.profileEndpoint Sample.loader Sample.Math_tan
              Sample.boundingBox (λ _, 4000) Session.blank Session.loggedIn
              {| accessToken := Some "abc"; refreshToken := None;
                 expiresAt := Some 5000; tokens_membershipId := Some "77" |}
              {| Auth.status := 401; text := "";
                 json := Throw (SyntaxError "Unexpected end of JSON input") |}
              eq_refl eq_refl eq_refl eq_refl (λ _, eq_refl) eq_refl)
    as (H1 & _ & _ & H2).
  split; [exact H1 | exact H2].
Defined.

Lemma init_with_corrupt_membership_cache_witness :
  loginButton
    (init Session.cfg Session.membershipsEndpoint Session.profileEndpoint
       Sample.loader Sample.Math_tan Sample.boundingBox (λ _, 4000)
       Session.blank Session.corrupt).1 = true
  ∧ (init Session.cfg Session.membershipsEndpoint Session.profileEndpoint
       Sample.loader Sample.Math_tan Sample.boundingBox (λ _, 4000)
       Session.blank Session.corrupt).2 = Session.corrupt.
Proof.
  destruct (init_with_corrupt_membership_cache Session.cfg
              Session.membershipsEndpoint Session.profileEndpoint Sample.loader
              Sample.Math_tan Sample.boundingBox (λ _, 4000) Session.blank
              Session.corrupt eq_refl eq_refl eq_refl) as (H1 & _ & H2).
  split; [exact H1 | exact H2].
Defined.

(** A full start-up: an authenticated user reaches the selector. *)
Lemma init_reaches_selector :
  selector
    (init Session.cfg Session.membershipsEndpoint Session.profileEndpoint
       Sample.loader Sample.Math_tan Sample.boundingBox (λ _, 4000)
       Session.blank Session.loggedIn).1
  = Some {[ "2305843009000000001" := Sample.hunter ]}.
Proof. vm_compute. reflexivity. Qed.

End StartUpRuns.
